(** * TaskFlow front end (frontend/src/App.js): a shallow embedding

    The React components of App.js are embedded as functions over explicit
    state.  Component state ([useState]), the ambient session globals
    ([localStorage], [axios.defaults.headers.common]) and the calls sent to
    the REST backend live in a world record that is threaded through a small
    state-and-exception monad, so that [try]/[catch]/[finally] blocks and
    early [return]s read as they do in the source.  The backend is an
    external collaborator: it is a parameter of every handler, and every
    statement below quantifies over all backends. *)

From Stdlib Require Import ZArith NArith List Ascii String Bool Lia.
From Stdlib Require Import Permutation Sorted.
Import ListNotations.

Local Open Scope string_scope.
Local Open Scope Z_scope.

(* ===================================================================== *)
(** * JavaScript values *)
(* ===================================================================== *)

Module Js.

(** A JSON value as the backend may put it in a response body.  Numbers are
    kept to the integers: a JSON number that is not an integer is truthy,
    like every non-zero integer. *)
#[warnings="-register-all"]
Inductive json : Type :=
| JNull
| JBool (b : bool)
| JNum (n : Z)
| JStr (s : string)
| JArr (items : list json)
| JObj (fields : list (string * json)).

(** A JavaScript expression may also evaluate to [undefined]: [None]. *)
Definition value : Type := option json.

Definition undefined : value := None.

Definition string_nonempty (s : string) : bool :=
  match s with
  | EmptyString => false
  | String _ _ => true
  end.

(** ToBoolean. *)
Definition truthy (v : value) : bool :=
  match v with
  | None => false
  | Some JNull => false
  | Some (JBool b) => b
  | Some (JNum n) => negb (n =? 0)
  | Some (JStr s) => string_nonempty s
  | Some (JArr _) => true
  | Some (JObj _) => true
  end.

(** [a || b]. *)
Definition or (a b : value) : value := if truthy a then a else b.

(** Own property lookup in a parsed object: a later binding of a key
    replaces an earlier one. *)
Fixpoint lookup (k : string) (fields : list (string * json)) : value :=
  match fields with
  | [] => None
  | (k', v) :: rest =>
      match lookup k rest with
      | Some w => Some w
      | None => if String.eqb k k' then Some v else None
      end
  end.

(** [v?.k]: [undefined] on [undefined] and [null]; a primitive or an array
    has no property of the names used here. *)
Definition opt_get (v : value) (k : string) : value :=
  match v with
  | Some (JObj fields) => lookup k fields
  | _ => None
  end.

(** Text that the code inspects character by character is a sequence of
    UTF-16 code units. *)
Definition code_unit : Type := N.
Definition text : Type := list code_unit.

(** WhiteSpace and LineTerminator of ECMAScript, the code points that
    [String.prototype.trim] strips. *)
Definition isWhiteSpace (c : code_unit) : bool :=
  (  ((9 <=? c) && (c <=? 13))
  || (c =? 32) || (c =? 160) || (c =? 5760)
  || ((8192 <=? c) && (c <=? 8202))
  || (c =? 8232) || (c =? 8233) || (c =? 8239) || (c =? 8287)
  || (c =? 12288) || (c =? 65279))%N.

Fixpoint trimStart (s : text) : text :=
  match s with
  | [] => []
  | c :: rest => if isWhiteSpace c then trimStart rest else s
  end.

Definition trimEnd (s : text) : text := rev (trimStart (rev s)).

Definition trim (s : text) : text := trimEnd (trimStart s).

(** ToBoolean of a string: the empty string alone is falsy. *)
Definition text_truthy (s : text) : bool :=
  match s with
  | [] => false
  | _ :: _ => true
  end.

(** A Rocq string literal as text (one code unit per character). *)
Fixpoint of_string (s : string) : text :=
  match s with
  | EmptyString => []
  | String a rest => N_of_ascii a :: of_string rest
  end.

End Js.

(* ===================================================================== *)
(** * Data model: what GET /users and GET /tasks deliver *)
(* ===================================================================== *)

Record User : Type := mkUser {
  id : string;
  name : string;
  email : string;
  role : string;
  role_level : Z
}.

Record Comment : Type := mkComment {
  author : string;
  comment_text : Js.text;
  timestamp : string
}.

(** [due_date] is [null] ([None]) or the date as the backend serialises it. *)
Record Task : Type := mkTask {
  task_id : string;
  title : string;
  description : string;
  status : string;
  priority : string;
  assigned_to : string;
  assigned_by : string;
  due_date : option string;
  comments : list Comment
}.

(* ===================================================================== *)
(** * Role hierarchy: CreateTaskDialog and the Team Overview tab *)
(* ===================================================================== *)

Module CreateTaskDialog.

(** [users.filter(user => { if (user.id === currentUser.id) return false;
                             return user.role_level <= currentUser.role_level; })] *)
Definition assignable (currentUser user : User) : bool :=
  if String.eqb (id user) (id currentUser) then false
  else role_level user <=? role_level currentUser.

Definition assignableUsers (users : list User) (currentUser : User) : list User :=
  filter (assignable currentUser) users.

End CreateTaskDialog.

Module Dashboard.

(** [Array.prototype.sort] is stable: with the comparator
    [(a, b) => b.role_level - a.role_level] an element stays ahead of every
    later element of the same or a lower level. *)
Fixpoint insert_by_level (a : User) (sorted : list User) : list User :=
  match sorted with
  | [] => [a]
  | b :: rest =>
      if role_level b - role_level a <=? 0 then a :: b :: rest
      else b :: insert_by_level a rest
  end.

Fixpoint sort_by_level (l : list User) : list User :=
  match l with
  | [] => []
  | a :: rest => insert_by_level a (sort_by_level rest)
  end.

(** The members rendered by the Team Overview tab:
    [users.filter(u => u.role_level <= user.role_level)
          .sort((a, b) => b.role_level - a.role_level)] *)
Definition teamOverview (users : list User) (user : User) : list User :=
  sort_by_level (filter (fun u => role_level u <=? role_level user) users).

Definition assignedToMe (tasks : list Task) (user : User) : list Task :=
  filter (fun t => String.eqb (assigned_to t) (id user)) tasks.

Definition assignedByMe (tasks : list Task) (user : User) : list Task :=
  filter (fun t => String.eqb (assigned_by t) (id user)) tasks.

End Dashboard.

(* ===================================================================== *)
(** * Effects: state, exceptions and the backend *)
(* ===================================================================== *)

Module Eff.

Section Monad.

Context {W E : Type}.

(** A computation ends by returning or by throwing; the world it leaves is
    kept in both cases. *)
Inductive outcome (A : Type) : Type :=
| Return (a : A)
| Throw (e : E).

Definition M (A : Type) : Type := W -> outcome A * W.

Definition ret {A} (a : A) : M A := fun w => (Return A a, w).

Definition throw {A} (e : E) : M A := fun w => (Throw A e, w).

Definition bind {A B} (m : M A) (k : A -> M B) : M B :=
  fun w =>
    match m w with
    | (Return _ a, w') => k a w'
    | (Throw _ e, w') => (Throw B e, w')
    end.

(** [try { body } catch (error) { handler }] *)
Definition try_catch {A} (body : M A) (handler : E -> M A) : M A :=
  fun w =>
    match body w with
    | (Return _ a, w') => (Return A a, w')
    | (Throw _ e, w') => handler e w'
    end.

(** [try { body } finally { final }], with a [final] block that neither
    returns nor throws. *)
Definition try_finally {A} (body : M A) (final : W -> W) : M A :=
  fun w => let (r, w') := body w in (r, final w').

Definition get : M W := fun w => (Return W w, w).

Definition modify (f : W -> W) : M unit := fun w => (Return unit tt, f w).

Definition exec {A} (m : M A) (w : W) : W := snd (m w).

Definition result {A} (m : M A) (w : W) : outcome A := fst (m w).

End Monad.

Arguments outcome : clear implicits.
Arguments M : clear implicits.
Arguments Return {E A} a.
Arguments Throw {E A} e.

End Eff.

Declare Scope eff_scope.
Delimit Scope eff_scope with eff.
Notation "x <- m ;; k" := (Eff.bind m (fun x => k))
  (at level 61, m at next level, right associativity) : eff_scope.
Notation "m ;; k" := (Eff.bind m (fun _ => k))
  (at level 61, right associativity) : eff_scope.

Module Http.

(** The error object a rejected axios call throws.  [response] is absent
    when no reply arrived; [data] is the parsed body of the reply, absent
    when it has none. *)
Record ErrorResponse : Type := mkErrorResponse {
  http_status : Z;
  data : Js.value
}.

Record AxiosError : Type := mkAxiosError {
  message : string;
  response : option ErrorResponse
}.

(** [error.response?.data?.detail] *)
Definition error_detail (error : AxiosError) : Js.value :=
  match response error with
  | None => Js.undefined
  | Some r => Js.opt_get (data r) "detail"
  end.

(** What the promise of a call settles to. *)
Inductive reply (A : Type) : Type :=
| Resolved (payload : A)
| Rejected (error : AxiosError).

Arguments Resolved {A} payload.
Arguments Rejected {A} error.

(** The body of a successful POST /auth/login or /auth/register. *)
Record AuthPayload : Type := mkAuthPayload {
  access_token : string;
  payload_user : User
}.

(** What a registration form submits. *)
Record RegisterData : Type := mkRegisterData {
  reg_name : string;
  reg_email : string;
  reg_password : string;
  reg_role : string
}.

(** The calls App.js sends. *)
Inductive request : Type :=
| PostLogin (email password : string)
| PostRegister (userData : RegisterData)
| GetMe (authorization : option string)
| PatchTask (task : string) (new_status : string)
| PostComment (task : string) (body : Js.text).

(** The backend: how each call settles. *)
Record Backend : Type := mkBackend {
  auth_login : string -> string -> reply AuthPayload;
  auth_register : RegisterData -> reply AuthPayload;
  auth_me : option string -> reply User;
  tasks_patch : string -> string -> reply unit;
  tasks_comment : string -> Js.text -> reply unit
}.

(** What a handler does that the outside can observe, in the order it
    happens: a call sent to the backend, a line on the console, a call of
    the [onTaskUpdated] callback (the dashboard's [fetchTasks]). *)
Inductive effect : Type :=
| Call (r : request)
| ConsoleError (msg : string)
| OnTaskUpdated.

(** [await axios.<verb>(...)]: the call goes out, then the promise settles
    and the [await] returns the payload or throws the error. *)
Definition await {W A} (emit : effect -> W -> W) (rq : request) (r : reply A)
  : Eff.M W AxiosError A :=
  fun w =>
    match r with
    | Resolved payload => (Eff.Return payload, emit (Call rq) w)
    | Rejected error => (Eff.Throw error, emit (Call rq) w)
    end.

End Http.

(* ===================================================================== *)
(** * AuthProvider: the session manager *)
(* ===================================================================== *)

Module Auth.

Import Http.

(** The session: the two ambient globals, the provider's state variables
    and the trace of what it did. *)
Record World : Type := mkWorld {
  localStorage_token : option string;   (* localStorage item 'token' *)
  default_authorization : option string;
      (* axios.defaults.headers.common['Authorization'] *)
  user : option User;                   (* useState(null) *)
  token : option string;                (* useState(localStorage.getItem('token')) *)
  loading : bool;                       (* useState(true) *)
  trace : list effect
}.

Definition localStorage_setItem (v : string) (w : World) : World :=
  mkWorld (Some v) (default_authorization w) (user w) (token w) (loading w) (trace w).

Definition localStorage_removeItem (w : World) : World :=
  mkWorld None (default_authorization w) (user w) (token w) (loading w) (trace w).

Definition set_default_authorization (h : option string) (w : World) : World :=
  mkWorld (localStorage_token w) h (user w) (token w) (loading w) (trace w).

Definition setUser (u : option User) (w : World) : World :=
  mkWorld (localStorage_token w) (default_authorization w) u (token w) (loading w) (trace w).

Definition setToken (t : option string) (w : World) : World :=
  mkWorld (localStorage_token w) (default_authorization w) (user w) t (loading w) (trace w).

Definition setLoading (b : bool) (w : World) : World :=
  mkWorld (localStorage_token w) (default_authorization w) (user w) (token w) b (trace w).

Definition emit (e : effect) (w : World) : World :=
  mkWorld (localStorage_token w) (default_authorization w) (user w) (token w) (loading w)
          (trace w ++ [e]).

Definition M : Type -> Type := Eff.M World AxiosError.

Definition await {A} (rq : request) (r : reply A) : M A := Http.await emit rq r.

(** The object [login] and [register] return: [{ success: true }] or
    [{ success: false, error: ... }]. *)
Record AuthResult : Type := mkAuthResult {
  success : bool;
  error : Js.value
}.

Definition bearer (access_token : string) : string :=
  ("Bearer " ++ access_token)%string.

Section WithBackend.

Variable srv : Backend.

Local Open Scope eff_scope.

Definition logout : M unit :=
  Eff.modify localStorage_removeItem ;;
  Eff.modify (setToken None) ;;
  Eff.modify (setUser None) ;;
  Eff.modify (set_default_authorization None).

Definition fetchCurrentUser : M unit :=
  Eff.try_finally
    (Eff.try_catch
       (w <- Eff.get ;;
        response <- await (GetMe (default_authorization w))
                          (auth_me srv (default_authorization w)) ;;
        Eff.modify (setUser (Some response)))
       (fun _ =>
          Eff.modify (emit (ConsoleError "Failed to fetch current user:")) ;;
          logout))
    (setLoading false).

(** The effect that runs when [token] changes. *)
Definition onTokenChange : M unit :=
  w <- Eff.get ;;
  match token w with
  | Some t =>
      if Js.string_nonempty t then
        Eff.modify (set_default_authorization (Some (bearer t))) ;;
        fetchCurrentUser
      else Eff.modify (setLoading false)
  | None => Eff.modify (setLoading false)
  end.

Definition login (email password : string) : M AuthResult :=
  Eff.try_catch
    (response <- await (PostLogin email password) (auth_login srv email password) ;;
     let access_token := access_token response in
     let userData := payload_user response in
     Eff.modify (localStorage_setItem access_token) ;;
     Eff.modify (setToken (Some access_token)) ;;
     Eff.modify (setUser (Some userData)) ;;
     Eff.modify (set_default_authorization (Some (bearer access_token))) ;;
     Eff.ret (mkAuthResult true Js.undefined))
    (fun error =>
       Eff.ret (mkAuthResult false
                  (Js.or (error_detail error) (Some (Js.JStr "Login failed"))))).

Definition register (userData : RegisterData) : M AuthResult :=
  Eff.try_catch
    (response <- await (PostRegister userData) (auth_register srv userData) ;;
     let access_token := access_token response in
     let userInfo := payload_user response in
     Eff.modify (localStorage_setItem access_token) ;;
     Eff.modify (setToken (Some access_token)) ;;
     Eff.modify (setUser (Some userInfo)) ;;
     Eff.modify (set_default_authorization (Some (bearer access_token))) ;;
     Eff.ret (mkAuthResult true Js.undefined))
    (fun error =>
       Eff.ret (mkAuthResult false
                  (Js.or (error_detail error) (Some (Js.JStr "Registration failed"))))).

End WithBackend.

(** The session state proper: everything of the world but the trace and
    the [loading] flag of the spinner. *)
Definition session (w : World)
  : option string * option string * option User * option string :=
  (localStorage_token w, token w, user w, default_authorization w).

End Auth.

(* ===================================================================== *)
(** * TaskCard: one task, its status control and its comment thread *)
(* ===================================================================== *)

Module TaskCard.

Import Http.

(** The props; [onTaskUpdated] is the dashboard's [fetchTasks], observed as
    the effect [OnTaskUpdated]. *)
Record Props : Type := mkProps {
  task : Task;
  currentUser : User
}.

(** The three state variables of the card and the trace of what its
    handlers did. *)
Record World : Type := mkWorld {
  showComments : bool;      (* useState(false) *)
  newComment : Js.text;     (* useState('') *)
  newStatus : string;       (* useState(task.status) *)
  trace : list effect
}.

Definition init (p : Props) : World := mkWorld false [] (status (task p)) [].

Definition setShowComments (b : bool) (w : World) : World :=
  mkWorld b (newComment w) (newStatus w) (trace w).

Definition setNewComment (t : Js.text) (w : World) : World :=
  mkWorld (showComments w) t (newStatus w) (trace w).

Definition setNewStatus (s : string) (w : World) : World :=
  mkWorld (showComments w) (newComment w) s (trace w).

Definition emit (e : effect) (w : World) : World :=
  mkWorld (showComments w) (newComment w) (newStatus w) (trace w ++ [e]).

Definition M : Type -> Type := Eff.M World AxiosError.

Definition await {A} (rq : request) (r : reply A) : M A := Http.await emit rq r.

(** The values of the three [SelectItem]s. *)
Definition selectable : list string := ["assigned"; "in_progress"; "completed"].

(** What a render shows, as far as the handlers and the claims go. *)
Record View : Type := mkView {
  due : option string;            (* the text of the due-date element, when rendered *)
  status_select : option string;  (* the value of the Select, when rendered *)
  update_button : bool;           (* the Update button is rendered *)
  comment_box : option Js.text;   (* the value of the Textarea, when rendered *)
  add_disabled : bool             (* the Add button is disabled *)
}.

Section WithFormat.

(** [format(new Date(d), pattern)] of date-fns. *)
Variable format : string -> string -> string.

Local Open Scope eff_scope.

Definition handleStatusUpdate (srv : Backend) (p : Props) : M unit :=
  w <- Eff.get ;;
  if String.eqb (newStatus w) (status (task p)) then Eff.ret tt
  else
    Eff.try_catch
      (await (PatchTask (task_id (task p)) (newStatus w))
             (tasks_patch srv (task_id (task p)) (newStatus w)) ;;
       Eff.modify (emit OnTaskUpdated))
      (fun _ => Eff.modify (emit (ConsoleError "Failed to update task status:"))).

Definition handleAddComment (srv : Backend) (p : Props) : M unit :=
  w <- Eff.get ;;
  if negb (Js.text_truthy (Js.trim (newComment w))) then Eff.ret tt
  else
    Eff.try_catch
      (await (PostComment (task_id (task p)) (newComment w))
             (tasks_comment srv (task_id (task p)) (newComment w)) ;;
       Eff.modify (setNewComment []) ;;
       Eff.modify (emit OnTaskUpdated))
      (fun _ => Eff.modify (emit (ConsoleError "Failed to add comment:"))).

(** [{task.due_date && (<div>... Due: {format(...)} </div>)}]: a falsy
    [due_date] renders nothing. *)
Definition due_element (t : Task) : option string :=
  match due_date t with
  | None => None
  | Some d =>
      if Js.string_nonempty d
      then Some ("Due: " ++ format d "MMM dd, yyyy")%string
      else None
  end.

Definition render (p : Props) (w : World) : View :=
  let own := String.eqb (assigned_to (task p)) (id (currentUser p)) in
  mkView
    (due_element (task p))
    (if own then Some (newStatus w) else None)
    (own && negb (String.eqb (newStatus w) (status (task p))))
    (if showComments w then Some (newComment w) else None)
    (negb (Js.text_truthy (Js.trim (newComment w)))).

(** What the user can do to a card.  An event on a control that the
    current render does not show (or shows disabled) reaches no handler. *)
Inductive ui_event : Type :=
| ClickShowHide
| ChangeComment (v : Js.text)
| SelectStatus (v : string)
| ClickUpdate
| ClickAdd.

Definition dispatch (srv : Backend) (p : Props) (ev : ui_event) : M unit :=
  w <- Eff.get ;;
  let v := render p w in
  match ev with
  | ClickShowHide => Eff.modify (setShowComments (negb (showComments w)))
  | ChangeComment t =>
      match comment_box v with
      | Some _ => Eff.modify (setNewComment t)
      | None => Eff.ret tt
      end
  | SelectStatus s =>
      match status_select v with
      | Some _ =>
          if existsb (String.eqb s) selectable
          then Eff.modify (setNewStatus s)
          else Eff.ret tt
      | None => Eff.ret tt
      end
  | ClickUpdate =>
      if update_button v then handleStatusUpdate srv p else Eff.ret tt
  | ClickAdd =>
      match comment_box v with
      | Some _ => if add_disabled v then Eff.ret tt else handleAddComment srv p
      | None => Eff.ret tt
      end
  end.

(** A session with one card: each event meets the backend as it is then. *)
Fixpoint run (p : Props) (steps : list (Backend * ui_event)) (w : World) : World :=
  match steps with
  | [] => w
  | (srv, ev) :: rest => run p rest (Eff.exec (dispatch srv p ev) w)
  end.

End WithFormat.

End TaskCard.

(* ===================================================================== *)
(** * The rest of the dashboard: member statistics and the two fetches *)
(* ===================================================================== *)

Module TeamOverview.

(** [tasks.filter(t => t.assigned_to === teamMember.id)] *)
Definition memberTasks (tasks : list Task) (teamMember : User) : list Task :=
  filter (fun t => String.eqb (assigned_to t) (id teamMember)) tasks.

(** [memberTasks.filter(t => t.status === st).length] *)
Definition with_status (st : string) (l : list Task) : nat :=
  List.length (filter (fun t => String.eqb (status t) st) l).

Definition completedTasks (tasks : list Task) (teamMember : User) : nat :=
  with_status "completed" (memberTasks tasks teamMember).

Definition inProgressTasks (tasks : list Task) (teamMember : User) : nat :=
  with_status "in_progress" (memberTasks tasks teamMember).

Definition assignedTasks (tasks : list Task) (teamMember : User) : nat :=
  with_status "assigned" (memberTasks tasks teamMember).

(** [{memberTasks.length > 0 && (...)}]: the progress bar is rendered. *)
Definition progress_shown (tasks : list Task) (teamMember : User) : bool :=
  (0 <? List.length (memberTasks tasks teamMember))%nat.

End TeamOverview.

Module DashboardData.

Import Http.

(** What the two fetches of the dashboard do that can be observed. *)
Inductive effect : Type :=
| GetTasks
| GetUsers
| ConsoleError (msg : string).

(** The state variables of [Dashboard] and the trace of its fetches. *)
Record World : Type := mkWorld {
  tasks : list Task;        (* useState([]) *)
  users : list User;        (* useState([]) *)
  loading : bool;           (* useState(true) *)
  activeTab : string;       (* useState('my-tasks') *)
  trace : list effect
}.

Definition init : World := mkWorld [] [] true "my-tasks" [].

Definition setTasks (l : list Task) (w : World) : World :=
  mkWorld l (users w) (loading w) (activeTab w) (trace w).

Definition setUsers (l : list User) (w : World) : World :=
  mkWorld (tasks w) l (loading w) (activeTab w) (trace w).

Definition setLoading (b : bool) (w : World) : World :=
  mkWorld (tasks w) (users w) b (activeTab w) (trace w).

Definition setActiveTab (t : string) (w : World) : World :=
  mkWorld (tasks w) (users w) (loading w) t (trace w).

Definition emit (e : effect) (w : World) : World :=
  mkWorld (tasks w) (users w) (loading w) (activeTab w) (trace w ++ [e]).

Definition M : Type -> Type := Eff.M World AxiosError.

(** [await axios.get(...)]: the call goes out, then the promise settles. *)
Definition await {A} (rq : effect) (r : reply A) : M A :=
  fun w =>
    match r with
    | Resolved payload => (Eff.Return payload, emit rq w)
    | Rejected error => (Eff.Throw error, emit rq w)
    end.

(** How GET /tasks and GET /users settle. *)
Record Backend : Type := mkBackend {
  get_tasks : reply (list Task);
  get_users : reply (list User)
}.

Section WithBackend.

Variable srv : Backend.

Local Open Scope eff_scope.

Definition fetchTasks : M unit :=
  Eff.try_finally
    (Eff.try_catch
       (response <- await GetTasks (get_tasks srv) ;;
        Eff.modify (setTasks response))
       (fun _ => Eff.modify (emit (ConsoleError "Failed to fetch tasks:"))))
    (setLoading false).

Definition fetchUsers : M unit :=
  Eff.try_catch
    (response <- await GetUsers (get_users srv) ;;
     Eff.modify (setUsers response))
    (fun _ => Eff.modify (emit (ConsoleError "Failed to fetch users:"))).

End WithBackend.

End DashboardData.

(* ===================================================================== *)
(** * The provider's life cycle, the routing and the two sign-in forms *)
(* ===================================================================== *)

Module Provider.

Import Http Auth.

(** The world when the page loads: [token] starts as
    [localStorage.getItem('token')], [user] as [null], [loading] as [true],
    and no default header is set yet. *)
Definition initial (stored : option string) : World :=
  mkWorld stored None None stored true [].

(** What can happen to the provider: a form calls [login] or [register],
    the dashboard's Logout button calls [logout], or the effect on [token]
    runs. *)
Inductive action : Type :=
| Login (email password : string)
| Register (userData : RegisterData)
| Logout
| TokenEffect.

Local Open Scope eff_scope.

Definition step (srv : Backend) (a : action) : M unit :=
  match a with
  | Login email password => _ <- login srv email password ;; Eff.ret tt
  | Register userData => _ <- register srv userData ;; Eff.ret tt
  | Logout => logout
  | TokenEffect => onTokenChange srv
  end.

(** A session of the provider: each action meets the backend as it is then. *)
Fixpoint run (steps : list (Backend * action)) (w : World) : World :=
  match steps with
  | [] => w
  | (srv, a) :: rest => run rest (Eff.exec (step srv a) w)
  end.

(** What [AuthContent] renders. *)
Inductive screen : Type :=
| Spinner
| DashboardScreen
| LoginScreen
| RegisterScreen.

Definition AuthContent (isLogin : bool) (w : World) : screen :=
  if loading w then Spinner
  else
    match user w with
    | Some _ => DashboardScreen
    | None => if isLogin then LoginScreen else RegisterScreen
    end.

End Provider.

Module LoginForm.

Import Http.

(** The four state variables of [Login], next to the provider's world. *)
Record World : Type := mkWorld {
  email : string;        (* useState('') *)
  password : string;     (* useState('') *)
  error : Js.value;      (* useState('') *)
  loading : bool;        (* useState(false) *)
  auth : Auth.World
}.

Definition init (a : Auth.World) : World :=
  mkWorld "" "" (Some (Js.JStr "")) false a.

Definition setEmail (v : string) (w : World) : World :=
  mkWorld v (password w) (error w) (loading w) (auth w).

Definition setPassword (v : string) (w : World) : World :=
  mkWorld (email w) v (error w) (loading w) (auth w).

Definition setError (v : Js.value) (w : World) : World :=
  mkWorld (email w) (password w) v (loading w) (auth w).

Definition setLoading (b : bool) (w : World) : World :=
  mkWorld (email w) (password w) (error w) b (auth w).

Definition setAuth (a : Auth.World) (w : World) : World :=
  mkWorld (email w) (password w) (error w) (loading w) a.

Definition M : Type -> Type := Eff.M World AxiosError.

(** A call into the provider, got from [useAuth()]. *)
Definition useAuth {A} (m : Auth.M A) : M A :=
  fun w => let (r, a) := m (auth w) in (r, setAuth a w).

Local Open Scope eff_scope.

Definition handleSubmit (srv : Backend) : M unit :=
  Eff.modify (setLoading true) ;;
  Eff.modify (setError (Some (Js.JStr ""))) ;;
  w <- Eff.get ;;
  result <- useAuth (Auth.login srv (email w) (password w)) ;;
  (if negb (Auth.success result)
   then Eff.modify (setError (Auth.error result))
   else Eff.ret tt) ;;
  Eff.modify (setLoading false).

(** [{error && (<div ...>{error}</div>)}]: the red line is rendered. *)
Definition error_shown (w : World) : bool := Js.truthy (error w).

End LoginForm.

Module RegisterForm.

Import Http.

(** The state variables of [Register], next to the provider's world. *)
Record World : Type := mkWorld {
  formData : RegisterData;   (* useState({ name: '', email: '', password: '', role: '' }) *)
  error : Js.value;          (* useState('') *)
  loading : bool;            (* useState(false) *)
  auth : Auth.World
}.

Definition init (a : Auth.World) : World :=
  mkWorld (mkRegisterData "" "" "" "") (Some (Js.JStr "")) false a.

Definition setFormData (d : RegisterData) (w : World) : World :=
  mkWorld d (error w) (loading w) (auth w).

Definition setError (v : Js.value) (w : World) : World :=
  mkWorld (formData w) v (loading w) (auth w).

Definition setLoading (b : bool) (w : World) : World :=
  mkWorld (formData w) (error w) b (auth w).

Definition setAuth (a : Auth.World) (w : World) : World :=
  mkWorld (formData w) (error w) (loading w) a.

(** The four fields the form's inputs name in [handleChange(field, value)]. *)
Inductive field : Type := name | email | password | role.

(** [setFormData(prev => ({ ...prev, [field]: value }))] *)
Definition handleChange (f : field) (value : string) (w : World) : World :=
  let prev := formData w in
  setFormData
    match f with
    | name => mkRegisterData value (reg_email prev) (reg_password prev) (reg_role prev)
    | email => mkRegisterData (reg_name prev) value (reg_password prev) (reg_role prev)
    | password => mkRegisterData (reg_name prev) (reg_email prev) value (reg_role prev)
    | role => mkRegisterData (reg_name prev) (reg_email prev) (reg_password prev) value
    end w.

(** The [roles] offered by the Select: value and label. *)
Definition roles : list (string * string) :=
  [ ("senior_manager", "Senior Manager");
    ("manager", "Manager");
    ("team_lead", "Team Lead");
    ("senior_architect", "Senior Architect");
    ("architect", "Architect");
    ("senior_developer", "Senior Developer");
    ("developer", "Developer");
    ("intern", "Intern") ].

Definition M : Type -> Type := Eff.M World AxiosError.

Definition useAuth {A} (m : Auth.M A) : M A :=
  fun w => let (r, a) := m (auth w) in (r, setAuth a w).

Local Open Scope eff_scope.

Definition handleSubmit (srv : Backend) : M unit :=
  Eff.modify (setLoading true) ;;
  Eff.modify (setError (Some (Js.JStr ""))) ;;
  w <- Eff.get ;;
  result <- useAuth (Auth.register srv (formData w)) ;;
  (if negb (Auth.success result)
   then Eff.modify (setError (Auth.error result))
   else Eff.ret tt) ;;
  Eff.modify (setLoading false).

Definition error_shown (w : World) : bool := Js.truthy (error w).

End RegisterForm.

(* ===================================================================== *)
(** * Strings as the dialog and the badges use them *)
(* ===================================================================== *)

Module Str.

(** [s.startsWith(t)] *)
Fixpoint startsWith (s t : string) : bool :=
  match t with
  | EmptyString => true
  | String b t' =>
      match s with
      | EmptyString => false
      | String a s' => Ascii.eqb a b && startsWith s' t'
      end
  end.

(** [s.includes(t)]: [t] occurs in [s] at some position. *)
Fixpoint includes (s t : string) : bool :=
  startsWith s t ||
  match s with
  | EmptyString => false
  | String _ s' => includes s' t
  end.

(** [s.split(sep)] for a separator of one character: the pieces between
    the separators, empty ones included; never the empty array. *)
Fixpoint split (sep : ascii) (s : string) : list string :=
  match s with
  | EmptyString => [EmptyString]
  | String c rest =>
      if Ascii.eqb c sep then EmptyString :: split sep rest
      else
        match split sep rest with
        | [] => [String c EmptyString]
        | piece :: pieces => String c piece :: pieces
        end
  end.

(** [pieces.join(sep)] *)
Fixpoint join (sep : string) (pieces : list string) : string :=
  match pieces with
  | [] => EmptyString
  | [piece] => piece
  | piece :: rest => (piece ++ sep ++ join sep rest)%string
  end.

(** [word.charAt(0)]: the empty string when [word] is empty. *)
Definition charAt0 (word : string) : string :=
  match word with
  | EmptyString => EmptyString
  | String c _ => String c EmptyString
  end.

(** [word.slice(1)] *)
Definition slice1 (word : string) : string :=
  match word with
  | EmptyString => EmptyString
  | String _ rest => rest
  end.

(** [c] occurs in [s]. *)
Fixpoint has (c : ascii) (s : string) : bool :=
  match s with
  | EmptyString => false
  | String a rest => Ascii.eqb a c || has c rest
  end.

End Str.

Module Roles.

Section WithUpperCase.

(** [String.prototype.toUpperCase]. *)
Variable toUpperCase : string -> string.

(** [role.split('_').map(word => word.charAt(0).toUpperCase() + word.slice(1))
         .join(' ')] *)
Definition getRoleDisplayName (role : string) : string :=
  Str.join " "
    (map (fun word => (toUpperCase (Str.charAt0 word) ++ Str.slice1 word)%string)
         (Str.split "_" role)).

End WithUpperCase.

End Roles.

(* ===================================================================== *)
(** * CreateTaskDialog: the form, the search and the submission *)
(* ===================================================================== *)

Module TaskDialog.

Import Http.

(** The payload of POST /tasks; [due_date] is [null] or the picked date. *)
Record FormData : Type := mkFormData {
  title : string;
  description : string;
  assigned_to : string;
  priority : string;
  due_date : option string
}.

(** The form as it starts and as a successful submission leaves it. *)
Definition blank : FormData := mkFormData "" "" "" "medium" None.

Record Props : Type := mkProps {
  users : list User;
  currentUser : User
}.

Inductive effect : Type :=
| PostTask (body : FormData)
| ConsoleError (msg : string)
| OnTaskCreated.

Record World : Type := mkWorld {
  open : bool;             (* useState(false) *)
  formData : FormData;
  loading : bool;          (* useState(false) *)
  searchTerm : string;     (* useState('') *)
  trace : list effect
}.

Definition init : World := mkWorld false blank false "" [].

Definition setOpen (b : bool) (w : World) : World :=
  mkWorld b (formData w) (loading w) (searchTerm w) (trace w).

Definition setFormData (d : FormData) (w : World) : World :=
  mkWorld (open w) d (loading w) (searchTerm w) (trace w).

Definition setLoading (b : bool) (w : World) : World :=
  mkWorld (open w) (formData w) b (searchTerm w) (trace w).

Definition setSearchTerm (t : string) (w : World) : World :=
  mkWorld (open w) (formData w) (loading w) t (trace w).

Definition emit (e : effect) (w : World) : World :=
  mkWorld (open w) (formData w) (loading w) (searchTerm w) (trace w ++ [e]).

(** The calls of [handleChange(field, value)] the form makes. *)
Inductive change : Type :=
| Title (value : string)
| Description (value : string)
| AssignedTo (value : string)
| Priority (value : string)
| DueDate (value : option string).

(** [setFormData(prev => ({ ...prev, [field]: value }))] *)
Definition handleChange (c : change) (w : World) : World :=
  let prev := formData w in
  setFormData
    match c with
    | Title v =>
        mkFormData v (description prev) (assigned_to prev) (priority prev) (due_date prev)
    | Description v =>
        mkFormData (title prev) v (assigned_to prev) (priority prev) (due_date prev)
    | AssignedTo v =>
        mkFormData (title prev) (description prev) v (priority prev) (due_date prev)
    | Priority v =>
        mkFormData (title prev) (description prev) (assigned_to prev) v (due_date prev)
    | DueDate v =>
        mkFormData (title prev) (description prev) (assigned_to prev) (priority prev) v
    end w.

(** The values of the priority Select. *)
Definition priorities : list string := ["low"; "medium"; "high"].

Definition M : Type -> Type := Eff.M World AxiosError.

Definition await {A} (rq : effect) (r : reply A) : M A :=
  fun w =>
    match r with
    | Resolved payload => (Eff.Return payload, emit rq w)
    | Rejected error => (Eff.Throw error, emit rq w)
    end.

Local Open Scope eff_scope.

(** [create] is how POST /tasks settles for a given payload. *)
Definition handleSubmit (create : FormData -> reply unit) : M unit :=
  Eff.modify (setLoading true) ;;
  Eff.try_finally
    (Eff.try_catch
       (w <- Eff.get ;;
        await (PostTask (formData w)) (create (formData w)) ;;
        Eff.modify (setFormData blank) ;;
        Eff.modify (setOpen false) ;;
        Eff.modify (emit OnTaskCreated))
       (fun _ => Eff.modify (emit (ConsoleError "Failed to create task:"))))
    (setLoading false).

Section WithLowerCase.

(** [String.prototype.toLowerCase]. *)
Variable toLowerCase : string -> string.

Definition matches (term : string) (user : User) : bool :=
  Str.includes (toLowerCase (name user)) (toLowerCase term) ||
  Str.includes (toLowerCase (role user)) (toLowerCase term) ||
  Str.includes (toLowerCase (email user)) (toLowerCase term).

Definition filteredUsers (p : Props) (w : World) : list User :=
  filter (matches (searchTerm w))
         (CreateTaskDialog.assignableUsers (users p) (currentUser p)).

(** The line shown in place of the cards when [filteredUsers] is empty. *)
Definition empty_message (w : World) : string :=
  if Js.string_nonempty (searchTerm w)
  then "No users found matching your search"
  else "No assignable team members".

(** What the user can do to the dialog.  [ClickUser n] is a click on the
    n-th card of the candidate list; the form submits only when its two
    [required] inputs are filled and the submit button is not disabled. *)
Inductive ui_event : Type :=
| OpenChange (b : bool)
| ChangeTitle (v : string)
| ChangeDescription (v : string)
| ChangeSearch (v : string)
| ClickUser (n : nat)
| SelectPriority (v : string)
| SelectDate (d : option string)
| ClickCancel
| Submit.

Definition dispatch (create : FormData -> reply unit) (p : Props) (ev : ui_event)
  : M unit :=
  w <- Eff.get ;;
  match ev with
  | OpenChange b => Eff.modify (setOpen b)
  | ChangeTitle v => Eff.modify (handleChange (Title v))
  | ChangeDescription v => Eff.modify (handleChange (Description v))
  | ChangeSearch v => Eff.modify (setSearchTerm v)
  | ClickUser n =>
      match nth_error (filteredUsers p w) n with
      | Some user => Eff.modify (handleChange (AssignedTo (id user)))
      | None => Eff.ret tt
      end
  | SelectPriority v =>
      if existsb (String.eqb v) priorities
      then Eff.modify (handleChange (Priority v))
      else Eff.ret tt
  | SelectDate d => Eff.modify (handleChange (DueDate d))
  | ClickCancel => Eff.modify (setOpen false)
  | Submit =>
      if Js.string_nonempty (title (formData w))
         && Js.string_nonempty (description (formData w))
         && negb (loading w)
      then handleSubmit create
      else Eff.ret tt
  end.

Fixpoint run (p : Props) (steps : list ((FormData -> reply unit) * ui_event))
  (w : World) : World :=
  match steps with
  | [] => w
  | (create, ev) :: rest => run p rest (Eff.exec (dispatch create p ev) w)
  end.

End WithLowerCase.

End TaskDialog.

(* ===================================================================== *)
(** * Sample data: a roster, tasks and backends to run the code on *)
(* ===================================================================== *)

Module Sample.

Import Http.

Definition alice : User := mkUser "u1" "Alice" "alice@example.com" "team_lead" 5.
Definition bob : User := mkUser "u2" "Bob" "bob@example.com" "senior_manager" 8.
Definition carol : User := mkUser "u3" "Carol" "carol@example.com" "intern" 1.

(** A reply with an HTTP error status and the given body. *)
Definition http_error (code : Z) (body : Js.value) : AxiosError :=
  mkAxiosError "Request failed" (Some (mkErrorResponse code body)).

(** No reply at all: the error carries no [response]. *)
Definition network_error : AxiosError := mkAxiosError "Network Error" None.

(** A backend that rejects every call with the same error. *)
Definition rejecting (e : AxiosError) : Backend :=
  mkBackend (fun _ _ => Rejected e) (fun _ => Rejected e) (fun _ => Rejected e)
            (fun _ _ => Rejected e) (fun _ _ => Rejected e).

(** A backend that accepts every call and signs everyone in as Alice. *)
Definition accepting : Backend :=
  mkBackend (fun _ _ => Resolved (mkAuthPayload "tok-1" alice))
            (fun _ => Resolved (mkAuthPayload "tok-1" alice))
            (fun _ => Resolved alice)
            (fun _ _ => Resolved tt) (fun _ _ => Resolved tt).

Definition with_detail (d : Js.json) : Js.value :=
  Some (Js.JObj [("detail", d)]).

(** A signed-in session. *)
Definition signed_in : Auth.World :=
  Auth.mkWorld (Some "tok-0") (Some "Bearer tok-0") (Some bob) (Some "tok-0") false [].

(** A task Bob gave Alice, and the same task with a due date. *)
Definition report : Task :=
  mkTask "t1" "Report" "Write the report" "completed" "medium" "u1" "u2" None [].

Definition report_due : Task :=
  mkTask "t1" "Report" "Write the report" "completed" "medium" "u1" "u2"
         (Some "2025-03-01T00:00:00") [].

Definition newcomer : RegisterData :=
  mkRegisterData "Dan" "dan@example.com" "secret" "developer".

(** A date formatter that shows the date as it was sent. *)
Definition verbatim (d pattern : string) : string := d.

(** Alice's card of the report. *)
Definition alice_card : TaskCard.Props := TaskCard.mkProps report alice.

End Sample.

(* ===================================================================== *)
(** * Vocabulary of the statements *)
(* ===================================================================== *)

Module Spec.

(** [a] is listed no later than [b]: its level is not below [b]'s. *)
Definition not_below (a b : User) : Prop := role_level b <= role_level a.

(** The message of a failed call: the [detail] of the reply when it is
    truthy, the fallback otherwise. *)
Definition failure_message (e : Http.AxiosError) (fallback : string) (msg : Js.value)
  : Prop :=
  (forall s, Http.error_detail e = Some (Js.JStr s) -> s <> "" ->
             msg = Some (Js.JStr s)) /\
  (Js.truthy (Http.error_detail e) = true -> msg = Http.error_detail e) /\
  (Js.truthy (Http.error_detail e) = false -> msg = Some (Js.JStr fallback)).

(** The world after a call that the backend accepted. *)
Definition signed_in_as (p : Http.AuthPayload) (rq : Http.request) (w : Auth.World)
  : Auth.World :=
  Auth.mkWorld (Some (Http.access_token p))
               (Some (Auth.bearer (Http.access_token p)))
               (Some (Http.payload_user p))
               (Some (Http.access_token p))
               (Auth.loading w)
               (Auth.trace w ++ [Http.Call rq]).

(** What every reachable world of a card satisfies: the selected status is
    the task's own or one of the Select's values, and every PATCH so far
    was sent for this task, by its assignee, with a value of the Select
    that is not the task's status. *)
Definition card_inv (p : TaskCard.Props) (w : TaskCard.World) : Prop :=
  (TaskCard.newStatus w = status (TaskCard.task p) \/
   In (TaskCard.newStatus w) TaskCard.selectable) /\
  (forall i s,
      In (Http.Call (Http.PatchTask i s)) (TaskCard.trace w) ->
      assigned_to (TaskCard.task p) = id (TaskCard.currentUser p) /\
      i = task_id (TaskCard.task p) /\
      In s TaskCard.selectable /\
      s <> status (TaskCard.task p)).

End Spec.

(* ===================================================================== *)
(** * More sample data and vocabulary, for the rest of the file *)
(* ===================================================================== *)

Module Fixtures.

Import Http.

(** Upper and lower case on the letters of ASCII, other characters kept. *)
Definition upper_ascii (c : ascii) : ascii :=
  let n := nat_of_ascii c in
  if ((97 <=? n) && (n <=? 122))%nat then ascii_of_nat (n - 32) else c.

Definition lower_ascii (c : ascii) : ascii :=
  let n := nat_of_ascii c in
  if ((65 <=? n) && (n <=? 90))%nat then ascii_of_nat (n + 32) else c.

Fixpoint map_string (f : ascii -> ascii) (s : string) : string :=
  match s with
  | EmptyString => EmptyString
  | String c rest => String (f c) (map_string f rest)
  end.

Definition ascii_upper : string -> string := map_string upper_ascii.
Definition ascii_lower : string -> string := map_string lower_ascii.

(** Bob looks at the report he gave Alice. *)
Definition bob_card : TaskCard.Props := TaskCard.mkProps Sample.report Sample.bob.

(** Alice opens the dialog over the whole roster. *)
Definition alice_dialog : TaskDialog.Props :=
  TaskDialog.mkProps [Sample.carol; Sample.bob; Sample.alice] Sample.alice.

(** POST /tasks accepted, and turned down. *)
Definition created (_ : TaskDialog.FormData) : reply unit := Resolved tt.
Definition refused (_ : TaskDialog.FormData) : reply unit :=
  Rejected Sample.network_error.

End Fixtures.

Module Terms.

(** The members of one role_level. *)
Definition at_level (k : Z) (u : User) : bool := role_level u =? k.

(** The provider's session hangs together: the persisted token is the
    token state, the default header is unset or the bearer of that token,
    and a user is set only with a token whose bearer the header carries. *)
Definition coherent (w : Auth.World) : Prop :=
  Auth.localStorage_token w = Auth.token w /\
  (Auth.default_authorization w = None \/
   Auth.default_authorization w = option_map Auth.bearer (Auth.token w)) /\
  (Auth.user w <> None ->
   exists t, Auth.token w = Some t /\
             Auth.default_authorization w = Some (Auth.bearer t)).

(** Every GET /auth/me so far went out with the bearer of a token that is
    not empty. *)
Definition me_authorized (w : Auth.World) : Prop :=
  forall h, In (Http.Call (Http.GetMe h)) (Auth.trace w) ->
            exists t, t <> "" /\ h = Some (Auth.bearer t).

(** How many calls, refetches and console lines a trace of a card holds. *)
Definition is_call (e : Http.effect) : bool :=
  match e with Http.Call _ => true | _ => false end.

Definition is_answer (e : Http.effect) : bool :=
  match e with Http.Call _ => false | _ => true end.

Definition calls (l : list Http.effect) : nat := List.length (filter is_call l).
Definition answers (l : list Http.effect) : nat := List.length (filter is_answer l).

(** Every comment POST so far was for this task, with a text that is not
    blank; and calls and answers are as many. *)
Definition comments_inv (p : TaskCard.Props) (w : TaskCard.World) : Prop :=
  (forall i body, In (Http.Call (Http.PostComment i body)) (TaskCard.trace w) ->
                  i = task_id (TaskCard.task p) /\ Js.trim body <> []) /\
  calls (TaskCard.trace w) = answers (TaskCard.trace w).

(** What the dialog may post: a filled title and description, one of the
    three priorities, and as assignee nobody or a member of the roster who
    is not the current user and not above the current user. *)
Definition postable (p : TaskDialog.Props) (d : TaskDialog.FormData) : Prop :=
  TaskDialog.title d <> "" /\
  TaskDialog.description d <> "" /\
  In (TaskDialog.priority d) TaskDialog.priorities /\
  (TaskDialog.assigned_to d = "" \/
   exists u, In u (TaskDialog.users p) /\
             id u = TaskDialog.assigned_to d /\
             id u <> id (TaskDialog.currentUser p) /\
             role_level u <= role_level (TaskDialog.currentUser p)).

(** The dialog so far posted postable payloads only, and what its form
    holds as priority and assignee is what a postable payload may hold. *)
Definition dialog_inv (p : TaskDialog.Props) (w : TaskDialog.World) : Prop :=
  (forall body, In (TaskDialog.PostTask body) (TaskDialog.trace w) -> postable p body) /\
  In (TaskDialog.priority (TaskDialog.formData w)) TaskDialog.priorities /\
  (TaskDialog.assigned_to (TaskDialog.formData w) = "" \/
   exists u, In u (TaskDialog.users p) /\
             id u = TaskDialog.assigned_to (TaskDialog.formData w) /\
             id u <> id (TaskDialog.currentUser p) /\
             role_level u <= role_level (TaskDialog.currentUser p)).

(** A computation that ends by returning, whatever the world: nothing it
    awaits makes it throw. *)
Definition returns {W E A} (m : Eff.M W E A) : Prop :=
  forall w, exists a, Eff.result m w = Eff.Return a.

(** A small letter of ASCII. *)
Definition small_letter (c : ascii) : bool :=
  ((97 <=? nat_of_ascii c) && (nat_of_ascii c <=? 122))%nat.

(** A string without the underscore. *)
Definition no_underscore (s : string) : Prop := Str.has "_" s = false.

End Terms.

(* ===================================================================== *)
(** * Properties of the role-hierarchy filters *)
(* ===================================================================== *)

Section Hierarchy.

Import CreateTaskDialog Dashboard Sample Spec.

Lemma assignable_true (currentUser user : User) :
  assignable currentUser user = true <->
  role_level user <= role_level currentUser /\ id user <> id currentUser.
Proof.
  unfold assignable.
  destruct (String.eqb_spec (id user) (id currentUser)) as [Heq | Hne].
  - split; [discriminate | intros [_ H]; contradiction].
  - rewrite Z.leb_le. tauto.
Qed.

(** C1: the assignment candidate list holds exactly the roster members
    whose role_level is at most the acting user's and whose id is not the
    acting user's; so it holds neither the acting user nor anyone of a
    higher role_level. *)
Theorem assignableUsers_exact (users : list User) (U : User) :
  (forall x, In x (assignableUsers users U) <->
             In x users /\ role_level x <= role_level U /\ id x <> id U) /\
  ~ In U (assignableUsers users U) /\
  (forall x, role_level x > role_level U -> ~ In x (assignableUsers users U)).
Proof.
  assert (Hiff : forall x, In x (assignableUsers users U) <->
                           In x users /\ role_level x <= role_level U /\ id x <> id U).
  { intro x. unfold assignableUsers.
    rewrite filter_In, assignable_true. reflexivity. }
  split; [exact Hiff | split].
  - intro HU. apply Hiff in HU. destruct HU as (_ & _ & Hid). now apply Hid.
  - intros x Hgt Hx. apply Hiff in Hx. lia.
Qed.

Lemma insert_by_level_perm (a : User) (l : list User) :
  Permutation (insert_by_level a l) (a :: l).
Proof.
  induction l as [| b rest IH]; simpl.
  - apply Permutation_refl.
  - destruct (role_level b - role_level a <=? 0).
    + apply Permutation_refl.
    + eapply perm_trans; [apply perm_skip, IH | apply perm_swap].
Qed.

Lemma sort_by_level_perm (l : list User) : Permutation (sort_by_level l) l.
Proof.
  induction l as [| a rest IH]; simpl.
  - apply perm_nil.
  - eapply perm_trans; [apply insert_by_level_perm | now apply perm_skip].
Qed.

Lemma insert_by_level_sorted (a : User) (l : list User) :
  StronglySorted not_below l -> StronglySorted not_below (insert_by_level a l).
Proof.
  induction l as [| b rest IH]; intro Hs; simpl.
  - constructor; constructor.
  - inversion Hs as [| ? ? Hrest Hall]; subst.
    destruct (Z.leb_spec (role_level b - role_level a) 0) as [Hle | Hgt].
    + constructor; [exact Hs |].
      constructor; [unfold not_below; lia |].
      eapply Forall_impl; [| exact Hall].
      unfold not_below. intros c Hc. lia.
    + constructor; [now apply IH |].
      eapply Permutation_Forall;
        [apply Permutation_sym, insert_by_level_perm |].
      constructor; [unfold not_below; lia | exact Hall].
Qed.

Lemma sort_by_level_sorted (l : list User) :
  StronglySorted not_below (sort_by_level l).
Proof.
  induction l as [| a rest IH]; simpl.
  - constructor.
  - now apply insert_by_level_sorted.
Qed.

Lemma teamOverview_In (users : list User) (U x : User) :
  In x (teamOverview users U) <-> In x users /\ role_level x <= role_level U.
Proof.
  unfold teamOverview. split.
  - intro H.
    apply (Permutation_in _ (sort_by_level_perm _)) in H.
    apply filter_In in H. now rewrite Z.leb_le in H.
  - intro H.
    apply (Permutation_in _ (Permutation_sym (sort_by_level_perm _))).
    apply filter_In. now rewrite Z.leb_le.
Qed.

(** C2, as stated, fails: the Team Overview of a roster that holds the
    acting user lists the acting user, whom the assignment candidate list
    leaves out. *)
Lemma teamOverview_lists_acting_user :
  teamOverview [carol; bob; alice] alice = [alice; carol] /\
  In alice (teamOverview [carol; bob; alice] alice) /\
  assignableUsers [carol; bob; alice] alice = [carol].
Proof.
  split; [reflexivity | split; [| reflexivity]].
  left; reflexivity.
Qed.

(** C2, amended: the Team Overview is scoped by role_level alone.  It
    lists exactly the roster members whose role_level is at most the acting
    user's (each as often as the roster has it), from the highest level
    down, hence nobody of a higher role_level; the acting user is not left
    out: whenever the roster holds the acting user, so does the tab. *)
Theorem teamOverview_scope (users : list User) (U : User) :
  (forall x, In x (teamOverview users U) <->
             In x users /\ role_level x <= role_level U) /\
  (forall x, role_level x > role_level U -> ~ In x (teamOverview users U)) /\
  (In U users -> In U (teamOverview users U)) /\
  Permutation (teamOverview users U)
              (filter (fun u => role_level u <=? role_level U) users) /\
  StronglySorted not_below (teamOverview users U).
Proof.
  split; [apply teamOverview_In |].
  split; [| split; [| split]].
  - intros x Hgt Hx. apply teamOverview_In in Hx. lia.
  - intro HU. apply teamOverview_In. split; [exact HU | lia].
  - apply sort_by_level_perm.
  - apply sort_by_level_sorted.
Qed.

End Hierarchy.

(* ===================================================================== *)
(** * Properties of the session manager *)
(* ===================================================================== *)

Section Session.

Import Http Auth Sample Spec.

Lemma or_truthy (a b : Js.value) : Js.truthy a = true -> Js.or a b = a.
Proof. unfold Js.or. now intros ->. Qed.

Lemma or_falsy (a b : Js.value) : Js.truthy a = false -> Js.or a b = b.
Proof. unfold Js.or. now intros ->. Qed.

Lemma string_nonempty_true (s : string) :
  Js.string_nonempty s = true <-> s <> "".
Proof. destruct s; simpl; split; congruence. Qed.

Lemma or_failure_message (e : AxiosError) (fallback : string) :
  failure_message e fallback (Js.or (error_detail e) (Some (Js.JStr fallback))).
Proof.
  repeat split.
  - intros s Hd Hs. rewrite Hd. apply or_truthy. simpl.
    now apply string_nonempty_true.
  - apply or_truthy.
  - apply or_falsy.
Qed.

Lemma login_rejected (srv : Backend) (email password : string) (w : World) e :
  auth_login srv email password = Rejected e ->
  login srv email password w =
  (Eff.Return (mkAuthResult false (Js.or (error_detail e) (Some (Js.JStr "Login failed")))),
   emit (Call (PostLogin email password)) w).
Proof.
  intro H. unfold login, Eff.try_catch, Eff.bind, await, Http.await.
  now rewrite H.
Qed.

Lemma register_rejected (srv : Backend) (userData : RegisterData) (w : World) e :
  auth_register srv userData = Rejected e ->
  register srv userData w =
  (Eff.Return (mkAuthResult false
                 (Js.or (error_detail e) (Some (Js.JStr "Registration failed")))),
   emit (Call (PostRegister userData)) w).
Proof.
  intro H. unfold register, Eff.try_catch, Eff.bind, await, Http.await.
  now rewrite H.
Qed.

Lemma login_resolved (srv : Backend) (email password : string) (w : World) p :
  auth_login srv email password = Resolved p ->
  login srv email password w =
  (Eff.Return (mkAuthResult true Js.undefined),
   signed_in_as p (PostLogin email password) w).
Proof.
  intro H. unfold login, Eff.try_catch, Eff.bind, await, Http.await.
  now rewrite H.
Qed.

Lemma register_resolved (srv : Backend) (userData : RegisterData) (w : World) p :
  auth_register srv userData = Resolved p ->
  register srv userData w =
  (Eff.Return (mkAuthResult true Js.undefined),
   signed_in_as p (PostRegister userData) w).
Proof.
  intro H. unfold register, Eff.try_catch, Eff.bind, await, Http.await.
  now rewrite H.
Qed.

(** C6, as stated, fails: a detail string that is present but empty is not
    the message returned (the fallback is), and a detail that is present
    but not a string is returned as it is, where the claim has the
    fallback. *)
Lemma empty_detail_is_replaced :
  let e := http_error 401 (with_detail (Js.JStr "")) in
  let v := http_error 422 (with_detail (Js.JArr [Js.JStr "field required"])) in
  error_detail e = Some (Js.JStr "") /\
  Eff.result (login (rejecting e) "alice@example.com" "pw") signed_in
  = Eff.Return (mkAuthResult false (Some (Js.JStr "Login failed"))) /\
  Eff.result (register (rejecting v) newcomer) signed_in
  = Eff.Return (mkAuthResult false (Some (Js.JArr [Js.JStr "field required"]))).
Proof. repeat split. Qed.

(** C6, amended: a login or register call whose backend call fails returns
    success false with, as error, the detail of the reply whenever that
    value is truthy (so every non-empty detail string), and otherwise (no
    reply, no detail, or a falsy one such as the empty string) the fallback
    'Login failed' / 'Registration failed'; a call whose backend call
    succeeds returns success true and no error. *)
Theorem auth_call_result (srv : Backend) (w : World) :
  (forall email password e,
      auth_login srv email password = Rejected e ->
      exists msg,
        Eff.result (login srv email password) w = Eff.Return (mkAuthResult false msg) /\
        failure_message e "Login failed" msg) /\
  (forall userData e,
      auth_register srv userData = Rejected e ->
      exists msg,
        Eff.result (register srv userData) w = Eff.Return (mkAuthResult false msg) /\
        failure_message e "Registration failed" msg) /\
  (forall email password p,
      auth_login srv email password = Resolved p ->
      Eff.result (login srv email password) w
      = Eff.Return (mkAuthResult true Js.undefined)) /\
  (forall userData p,
      auth_register srv userData = Resolved p ->
      Eff.result (register srv userData) w
      = Eff.Return (mkAuthResult true Js.undefined)).
Proof.
  unfold Eff.result.
  split; [| split; [| split]].
  - intros email password e H. eexists.
    rewrite (login_rejected _ _ _ _ _ H). split; [reflexivity |].
    apply or_failure_message.
  - intros userData e H. eexists.
    rewrite (register_rejected _ _ _ _ H). split; [reflexivity |].
    apply or_failure_message.
  - intros email password p H. now rewrite (login_resolved _ _ _ _ _ H).
  - intros userData p H. now rewrite (register_resolved _ _ _ _ H).
Qed.

(** A backend message is surfaced, and a lost connection gets the
    fallback. *)
Example login_surfaces_detail :
  Eff.result
    (login (rejecting (http_error 401 (with_detail (Js.JStr "Invalid credentials"))))
           "alice@example.com" "pw") signed_in
  = Eff.Return (mkAuthResult false (Some (Js.JStr "Invalid credentials"))) /\
  Eff.result (register (rejecting network_error) newcomer) signed_in
  = Eff.Return (mkAuthResult false (Some (Js.JStr "Registration failed"))).
Proof. split; reflexivity. Qed.

Lemma logout_run (w : World) :
  logout w = (Eff.Return tt, mkWorld None None None None (loading w) (trace w)).
Proof. reflexivity. Qed.

(** C7: when GET /auth/me fails, [fetchCurrentUser] logs the failure and
    runs [logout]; and [logout], whenever it runs, removes the persisted
    token, sets the token and user state to null and deletes the default
    Authorization header (it touches nothing else). *)
Theorem failed_me_logs_out (srv : Backend) (w : World) (e : AxiosError) :
  auth_me srv (default_authorization w) = Rejected e ->
  Eff.exec (fetchCurrentUser srv) w
  = setLoading false
      (Eff.exec logout
         (emit (ConsoleError "Failed to fetch current user:")
            (emit (Call (GetMe (default_authorization w))) w))) /\
  session (Eff.exec (fetchCurrentUser srv) w) = (None, None, None, None) /\
  (forall w0 : World,
      Eff.result logout w0 = Eff.Return tt /\
      localStorage_token (Eff.exec logout w0) = None /\
      token (Eff.exec logout w0) = None /\
      user (Eff.exec logout w0) = None /\
      default_authorization (Eff.exec logout w0) = None /\
      loading (Eff.exec logout w0) = loading w0 /\
      trace (Eff.exec logout w0) = trace w0).
Proof.
  intro H.
  assert (Hrun : Eff.exec (fetchCurrentUser srv) w
                 = setLoading false
                     (Eff.exec logout
                        (emit (ConsoleError "Failed to fetch current user:")
                           (emit (Call (GetMe (default_authorization w))) w)))).
  { unfold Eff.exec, fetchCurrentUser, Eff.try_finally, Eff.try_catch,
      Eff.bind, Eff.get, await, Http.await.
    rewrite H. reflexivity. }
  split; [exact Hrun | split].
  - rewrite Hrun. reflexivity.
  - intro w0. unfold Eff.result, Eff.exec. rewrite logout_run. simpl.
    repeat split.
Qed.

Lemma failed_me_logs_out_witness :
  session (Eff.exec (fetchCurrentUser (rejecting (http_error 401 (with_detail (Js.JStr "Token expired")))))
                    signed_in)
  = (None, None, None, None).
Proof.
  apply (failed_me_logs_out
           (rejecting (http_error 401 (with_detail (Js.JStr "Token expired"))))
           signed_in
           (http_error 401 (with_detail (Js.JStr "Token expired")))).
  reflexivity.
Defined.

(** C10: a login or register call that fails (it returns success false)
    leaves the session as it was: the persisted token, the token and user
    state and the default Authorization header keep their values, and all
    the call did is send its request; only a call that the backend accepts
    writes them. *)
Theorem failed_auth_call_keeps_session (srv : Backend) (w : World) :
  (forall email password r,
      Eff.result (login srv email password) w = Eff.Return r ->
      success r = false ->
      Eff.exec (login srv email password) w = emit (Call (PostLogin email password)) w /\
      session (Eff.exec (login srv email password) w) = session w) /\
  (forall userData r,
      Eff.result (register srv userData) w = Eff.Return r ->
      success r = false ->
      Eff.exec (register srv userData) w = emit (Call (PostRegister userData)) w /\
      session (Eff.exec (register srv userData) w) = session w) /\
  (forall email password e,
      auth_login srv email password = Rejected e ->
      session (Eff.exec (login srv email password) w) = session w) /\
  (forall userData e,
      auth_register srv userData = Rejected e ->
      session (Eff.exec (register srv userData) w) = session w).
Proof.
  unfold Eff.result, Eff.exec.
  split; [| split; [| split]].
  - intros email password r.
    destruct (auth_login srv email password) as [p | e] eqn:Hr.
    + rewrite (login_resolved _ _ _ _ _ Hr). simpl. intros [= <-]. discriminate.
    + rewrite (login_rejected _ _ _ _ _ Hr). intros _ _. split; reflexivity.
  - intros userData r.
    destruct (auth_register srv userData) as [p | e] eqn:Hr.
    + rewrite (register_resolved _ _ _ _ Hr). simpl. intros [= <-]. discriminate.
    + rewrite (register_rejected _ _ _ _ Hr). intros _ _. split; reflexivity.
  - intros email password e Hr. now rewrite (login_rejected _ _ _ _ _ Hr).
  - intros userData e Hr. now rewrite (register_rejected _ _ _ _ Hr).
Qed.

(** A rejected login in a signed-in session changes nothing of it, and an
    accepted one replaces it. *)
Example rejected_login_keeps_session :
  session (Eff.exec (login (rejecting network_error) "alice@example.com" "pw") signed_in)
  = (Some "tok-0", Some "tok-0", Some bob, Some "Bearer tok-0") /\
  session (Eff.exec (login accepting "alice@example.com" "pw") signed_in)
  = (Some "tok-1", Some "tok-1", Some alice, Some "Bearer tok-1").
Proof. split; reflexivity. Qed.

End Session.

(* ===================================================================== *)
(** * Properties of the task card *)
(* ===================================================================== *)

Section Trim.

Import Js.

Lemma trimStart_nil (s : text) :
  trimStart s = [] <-> forallb isWhiteSpace s = true.
Proof.
  induction s as [| c rest IH]; simpl.
  - tauto.
  - destruct (isWhiteSpace c); simpl; [exact IH |].
    split; discriminate.
Qed.

Lemma trimStart_blank_or_head (s : text) :
  trimStart s = [] \/
  exists c rest, trimStart s = c :: rest /\ isWhiteSpace c = false.
Proof.
  induction s as [| c rest IH]; simpl.
  - now left.
  - destruct (isWhiteSpace c) eqn:Hc; [exact IH |].
    right. now exists c, rest.
Qed.

Lemma forallb_rev {A} (f : A -> bool) (l : list A) :
  forallb f (rev l) = forallb f l.
Proof.
  induction l as [| a rest IH]; simpl; [reflexivity |].
  rewrite forallb_app, IH. simpl. rewrite andb_true_r. apply andb_comm.
Qed.

Lemma rev_nil_inv {A} (l : list A) : rev l = [] -> l = [].
Proof.
  intro H. rewrite <- (rev_involutive l), H. reflexivity.
Qed.

(** [s.trim()] is empty exactly when [s] is empty or all white space. *)
Lemma trim_nil (s : text) :
  trim s = [] <-> forallb isWhiteSpace s = true.
Proof.
  unfold trim, trimEnd. split.
  - intro H. apply rev_nil_inv in H.
    apply trimStart_nil in H. rewrite forallb_rev in H.
    destruct (trimStart_blank_or_head s) as [Hnil | (c & rest & Heq & Hc)].
    + now apply trimStart_nil.
    + rewrite Heq in H. simpl in H. rewrite Hc in H. discriminate.
  - intro H. apply trimStart_nil in H. rewrite H. reflexivity.
Qed.

Lemma trim_falsy (s : text) :
  negb (text_truthy (trim s)) = true <-> forallb isWhiteSpace s = true.
Proof.
  rewrite <- trim_nil. destruct (trim s); simpl; split; congruence.
Qed.

Lemma trim_truthy (s : text) :
  negb (text_truthy (trim s)) = false <-> forallb isWhiteSpace s = false.
Proof.
  pose proof (trim_falsy s) as H.
  destruct (negb (text_truthy (trim s))), (forallb isWhiteSpace s);
    intuition congruence.
Qed.

End Trim.

Section Card.

Import Http TaskCard Sample Spec.

Variable format : string -> string -> string.

Lemma handleStatusUpdate_run (srv : Backend) (p : Props) (w : World) :
  handleStatusUpdate srv p w =
  (Eff.Return tt,
   if String.eqb (newStatus w) (status (task p)) then w
   else
     let sent := emit (Call (PatchTask (task_id (task p)) (newStatus w))) w in
     match tasks_patch srv (task_id (task p)) (newStatus w) with
     | Resolved _ => emit OnTaskUpdated sent
     | Rejected _ => emit (ConsoleError "Failed to update task status:") sent
     end).
Proof.
  unfold handleStatusUpdate, Eff.bind, Eff.get, Eff.try_catch, await, Http.await.
  destruct (String.eqb (newStatus w) (status (task p))); [reflexivity |].
  destruct (tasks_patch srv (task_id (task p)) (newStatus w)); reflexivity.
Qed.

Lemma handleAddComment_run (srv : Backend) (p : Props) (w : World) :
  handleAddComment srv p w =
  (Eff.Return tt,
   if negb (Js.text_truthy (Js.trim (newComment w))) then w
   else
     let sent := emit (Call (PostComment (task_id (task p)) (newComment w))) w in
     match tasks_comment srv (task_id (task p)) (newComment w) with
     | Resolved _ => emit OnTaskUpdated (setNewComment [] sent)
     | Rejected _ => emit (ConsoleError "Failed to add comment:") sent
     end).
Proof.
  unfold handleAddComment, Eff.bind, Eff.get, Eff.try_catch, await, Http.await.
  destruct (negb (Js.text_truthy (Js.trim (newComment w)))); [reflexivity |].
  destruct (tasks_comment srv (task_id (task p)) (newComment w)); reflexivity.
Qed.

(** C3, as stated, fails: a comment with text is posted, but when the
    backend turns the POST down the input keeps its text and no refetch
    follows. *)
Lemma failed_comment_keeps_input :
  let w := setNewComment (Js.of_string "hi") (init alice_card) in
  let w' := Eff.exec (handleAddComment (rejecting network_error) alice_card) w in
  Js.trim (newComment w) = Js.of_string "hi" /\
  newComment w' = Js.of_string "hi" /\
  trace w' = [Call (PostComment "t1" (Js.of_string "hi"));
              ConsoleError "Failed to add comment:"].
Proof. repeat split. Qed.

(** C3, amended: a comment whose trimmed text is empty (the empty string or
    white space only) is not submitted: no POST, the input is kept, no
    refetch.  A comment whose trimmed text is not empty is posted (with the
    text as typed); when the POST succeeds the input is cleared and a
    refetch is triggered, and when it fails the failure is logged, the
    input keeps its text and no refetch is triggered. *)
Theorem add_comment_behaviour (srv : Backend) (p : Props) (w : World) :
  let text := newComment w in
  let rq := PostComment (task_id (task p)) text in
  (Js.trim text = [] <-> forallb Js.isWhiteSpace text = true) /\
  (Js.trim text = [] -> handleAddComment srv p w = (Eff.Return tt, w)) /\
  (Js.trim text <> [] ->
   forall u, tasks_comment srv (task_id (task p)) text = Resolved u ->
   handleAddComment srv p w =
   (Eff.Return tt,
    mkWorld (showComments w) [] (newStatus w) (trace w ++ [Call rq; OnTaskUpdated]))) /\
  (Js.trim text <> [] ->
   forall e, tasks_comment srv (task_id (task p)) text = Rejected e ->
   handleAddComment srv p w =
   (Eff.Return tt,
    mkWorld (showComments w) text (newStatus w)
            (trace w ++ [Call rq; ConsoleError "Failed to add comment:"]))).
Proof.
  cbv zeta. split; [apply trim_nil | split; [| split]].
  - intro H. rewrite handleAddComment_run, H. destruct w; reflexivity.
  - intros H u Hr. rewrite handleAddComment_run, Hr.
    destruct (Js.trim (newComment w)); [contradiction |].
    unfold emit, setNewComment. simpl. now rewrite <- app_assoc.
  - intros H e Hr. rewrite handleAddComment_run, Hr.
    destruct (Js.trim (newComment w)); [contradiction |].
    unfold emit. simpl. now rewrite <- app_assoc.
Qed.

Lemma init_inv (p : Props) : card_inv p (init p).
Proof.
  split; [now left | intros i s []].
Qed.

Lemma update_button_true (p : Props) (w : World) :
  update_button (render format p w) = true <->
  assigned_to (task p) = id (currentUser p) /\ newStatus w <> status (task p).
Proof.
  simpl. rewrite andb_true_iff, negb_true_iff, String.eqb_eq, String.eqb_neq.
  reflexivity.
Qed.

Lemma status_select_shown (p : Props) (w : World) :
  status_select (render format p w) <> None <->
  assigned_to (task p) = id (currentUser p).
Proof.
  simpl. destruct (String.eqb_spec (assigned_to (task p)) (id (currentUser p)));
    split; congruence.
Qed.

Lemma selectable_In (s : string) :
  existsb (String.eqb s) selectable = true <-> In s selectable.
Proof.
  rewrite existsb_exists. split.
  - intros (x & Hx & Heq). apply String.eqb_eq in Heq. now subst.
  - intro H. exists s. split; [exact H | apply String.eqb_refl].
Qed.

Lemma dispatch_inv (srv : Backend) (p : Props) (ev : ui_event) (w : World) :
  card_inv p w -> card_inv p (Eff.exec (dispatch format srv p ev) w).
Proof.
  intros [Hsel Hpatch].
  unfold Eff.exec, dispatch, Eff.bind, Eff.get.
  destruct ev as [| v | v | |].
  - split; assumption.
  - destruct (comment_box (render format p w)); split; assumption.
  - destruct (status_select (render format p w)); [| split; assumption].
    destruct (existsb (String.eqb v) selectable) eqn:Hv; [| split; assumption].
    split; [right; now apply selectable_In | exact Hpatch].
  - destruct (update_button (render format p w)) eqn:Hb; [| split; assumption].
    apply update_button_true in Hb. destruct Hb as [Hown Hne].
    rewrite handleStatusUpdate_run.
    apply String.eqb_neq in Hne. rewrite Hne. apply String.eqb_neq in Hne.
    assert (Hin : In (newStatus w) selectable) by (destruct Hsel; [contradiction | assumption]).
    destruct (tasks_patch srv (task_id (task p)) (newStatus w));
      (split; [exact Hsel |]); simpl; intros i s Hi;
      repeat (apply in_app_or in Hi; destruct Hi as [Hi | Hi]);
      try (now apply Hpatch);
      destruct Hi as [Hi | []]; inversion Hi; subst; auto.
  - destruct (comment_box (render format p w)); [| split; assumption].
    destruct (add_disabled (render format p w)); [split; assumption |].
    rewrite handleAddComment_run.
    destruct (negb (Js.text_truthy (Js.trim (newComment w)))); [split; assumption |].
    destruct (tasks_comment srv (task_id (task p)) (newComment w));
      (split; [exact Hsel |]); simpl; intros i s Hi;
      repeat (apply in_app_or in Hi; destruct Hi as [Hi | Hi]);
      try (now apply Hpatch);
      destruct Hi as [Hi | []]; inversion Hi.
Qed.

Lemma run_inv (p : Props) (steps : list (Backend * ui_event)) (w : World) :
  card_inv p w -> card_inv p (run format p steps w).
Proof.
  revert w. induction steps as [| [srv ev] rest IH]; intros w Hw; simpl.
  - exact Hw.
  - apply IH. now apply dispatch_inv.
Qed.

Lemma dispatch_select (srv : Backend) (p : Props) (s : string) (w : World) :
  assigned_to (task p) = id (currentUser p) ->
  In s selectable ->
  Eff.exec (dispatch format srv p (SelectStatus s)) w = setNewStatus s w.
Proof.
  intros Hown Hs. apply String.eqb_eq in Hown. apply selectable_In in Hs.
  unfold Eff.exec, dispatch, Eff.bind, Eff.get, render.
  cbn [status_select fst snd]. rewrite Hown, Hs. reflexivity.
Qed.

Lemma dispatch_update (srv : Backend) (p : Props) (w : World) :
  update_button (render format p w) = true ->
  Eff.exec (dispatch format srv p ClickUpdate) w
  = Eff.exec (handleStatusUpdate srv p) w.
Proof.
  intro Hb. unfold Eff.exec at 1. unfold dispatch, Eff.bind, Eff.get.
  cbn [fst snd]. rewrite Hb. reflexivity.
Qed.

(** C4: the status control (the Select and its Update button) is rendered
    only on a card whose task is assigned to the current user, and whatever
    the user does with a card, every status PATCH it sends is sent for a
    task whose assigned_to is the current user's id. *)
Theorem status_patch_only_for_assignee (p : Props) :
  (forall w, status_select (render format p w) <> None ->
             assigned_to (task p) = id (currentUser p)) /\
  (forall w, update_button (render format p w) = true ->
             assigned_to (task p) = id (currentUser p)) /\
  (forall steps i s,
      In (Call (PatchTask i s)) (trace (run format p steps (init p))) ->
      assigned_to (task p) = id (currentUser p) /\ i = task_id (task p)).
Proof.
  split; [| split].
  - intros w H. now apply status_select_shown in H.
  - intros w H. now apply update_button_true in H.
  - intros steps i s H.
    destruct (run_inv p steps (init p) (init_inv p)) as [_ Hpatch].
    destruct (Hpatch i s H) as (Hown & Hi & _). now split.
Qed.

(** C5, as stated, fails: with the task's current status selected, the
    update sends nothing, from the handler as from the card. *)
Lemma same_status_sends_nothing :
  status (task alice_card) = "completed" /\
  newStatus (init alice_card) = "completed" /\
  trace (Eff.exec (handleStatusUpdate accepting alice_card) (init alice_card)) = [] /\
  trace (run verbatim alice_card
             [(accepting, SelectStatus "completed"); (accepting, ClickUpdate)]
             (init alice_card)) = [].
Proof. repeat split. Qed.

(** C5, amended: no forward-only order is enforced.  Whatever the task's
    current status, every value of the Select that differs from it is sent
    as it is: selecting it and pressing Update sends one PATCH with exactly
    that value as the new status, and the handler run with any selected
    status other than the current one sends one PATCH with it.  (With the
    current status selected nothing is sent.) *)
Theorem selected_status_is_patched (srv : Backend) (p : Props) (s : string) :
  assigned_to (task p) = id (currentUser p) ->
  In s selectable ->
  s <> status (task p) ->
  (exists after,
      (after = OnTaskUpdated \/ after = ConsoleError "Failed to update task status:") /\
      trace (run format p [(srv, SelectStatus s); (srv, ClickUpdate)] (init p))
      = [Call (PatchTask (task_id (task p)) s); after]) /\
  (forall w, newStatus w = s ->
      exists after,
        (after = OnTaskUpdated \/ after = ConsoleError "Failed to update task status:") /\
        trace (Eff.exec (handleStatusUpdate srv p) w)
        = (trace w ++ [Call (PatchTask (task_id (task p)) s); after])%list).
Proof.
  intros Hown Hs Hne.
  assert (Hhandler : forall w, newStatus w = s ->
            exists after,
              (after = OnTaskUpdated \/
               after = ConsoleError "Failed to update task status:") /\
              trace (Eff.exec (handleStatusUpdate srv p) w)
              = (trace w ++ [Call (PatchTask (task_id (task p)) s); after])%list).
  { intros w Hw. unfold Eff.exec. rewrite handleStatusUpdate_run, Hw.
    apply String.eqb_neq in Hne. rewrite Hne.
    destruct (tasks_patch srv (task_id (task p)) s); eexists; simpl;
      (split; [| now rewrite <- app_assoc]); auto. }
  split; [| exact Hhandler].
  cbn [run].
  rewrite (dispatch_select srv p s (init p) Hown Hs).
  rewrite dispatch_update
    by (apply update_button_true; split; [exact Hown | exact Hne]).
  exact (Hhandler (setNewStatus s (init p)) eq_refl).
Qed.

(** C9: with the task's current status selected, [handleStatusUpdate]
    returns at once: it sends no PATCH and triggers no refetch (the world
    is left as it was); and the Update button is rendered only while the
    selected status differs from the current one, so that then a click on
    its place reaches no handler. *)
Theorem same_status_update_is_noop (srv : Backend) (p : Props) (w : World) :
  newStatus w = status (task p) ->
  handleStatusUpdate srv p w = (Eff.Return tt, w) /\
  update_button (render format p w) = false /\
  Eff.exec (dispatch format srv p ClickUpdate) w = w /\
  (forall w', update_button (render format p w') = true ->
              newStatus w' <> status (task p)).
Proof.
  intro Heq.
  assert (Hb : update_button (render format p w) = false).
  { destruct (update_button (render format p w)) eqn:Hb; [| reflexivity].
    apply update_button_true in Hb. now destruct Hb. }
  split; [| split; [exact Hb | split]].
  - rewrite handleStatusUpdate_run.
    apply String.eqb_eq in Heq. now rewrite Heq.
  - unfold Eff.exec, dispatch, Eff.bind, Eff.get. cbn [fst snd].
    now rewrite Hb.
  - intros w' Hw'. now apply update_button_true in Hw'.
Qed.

(** C8: the card renders the due-date element exactly when the task's
    due_date is set.  With due_date null nothing is rendered; with a date
    (a date string, which is never empty) the element shows the date
    formatted with the pattern 'MMM dd, yyyy'. *)
Theorem due_date_indicator (t : Task) :
  (due_date t = None -> due_element format t = None) /\
  (forall d, due_date t = Some d -> d <> "" ->
             due_element format t = Some ("Due: " ++ format d "MMM dd, yyyy")%string) /\
  (due_element format t <> None <-> exists d, due_date t = Some d /\ d <> "") /\
  (forall c w, due (render format (mkProps t c) w) = due_element format t).
Proof.
  unfold due_element. split; [| split; [| split]].
  - now intros ->.
  - intros d -> Hd. destruct d; [contradiction | reflexivity].
  - destruct (due_date t) as [[| a d] |]; simpl; split;
      try congruence.
    + intros (d & [= <-] & Hd). contradiction.
    + intros _. eexists. split; [reflexivity | discriminate].
    + intros (d & Hd & _). discriminate.
  - reflexivity.
Qed.

End Card.

(** The report without a due date shows no due-date element; with one, it
    shows the date. *)
Example report_due_date :
  TaskCard.due_element Sample.verbatim Sample.report = None /\
  TaskCard.due_element Sample.verbatim Sample.report_due
  = Some "Due: 2025-03-01T00:00:00".
Proof. split; reflexivity. Qed.

(** A backward move (completed to assigned) by the assignee is sent. *)
Lemma selected_status_is_patched_witness :
  (assigned_to (TaskCard.task Sample.alice_card)
   = id (TaskCard.currentUser Sample.alice_card) /\
   In "assigned" TaskCard.selectable /\
   "assigned" <> status (TaskCard.task Sample.alice_card)) /\
  exists after,
    (after = Http.OnTaskUpdated \/
     after = Http.ConsoleError "Failed to update task status:") /\
    TaskCard.trace
      (TaskCard.run Sample.verbatim Sample.alice_card
         [(Sample.accepting, TaskCard.SelectStatus "assigned");
          (Sample.accepting, TaskCard.ClickUpdate)]
         (TaskCard.init Sample.alice_card))
    = [Http.Call (Http.PatchTask (task_id (TaskCard.task Sample.alice_card)) "assigned");
       after].
Proof.
  assert (H1 : assigned_to (TaskCard.task Sample.alice_card)
               = id (TaskCard.currentUser Sample.alice_card)) by reflexivity.
  assert (H2 : In "assigned" TaskCard.selectable) by (left; reflexivity).
  assert (H3 : "assigned" <> status (TaskCard.task Sample.alice_card))
    by discriminate.
  split; [repeat split; assumption |].
  exact (proj1 (selected_status_is_patched Sample.verbatim Sample.accepting
                  Sample.alice_card "assigned" H1 H2 H3)).
Defined.

(** A freshly rendered card has the task's status selected. *)
Lemma same_status_update_is_noop_witness :
  TaskCard.newStatus (TaskCard.init Sample.alice_card)
  = status (TaskCard.task Sample.alice_card) /\
  TaskCard.handleStatusUpdate Sample.accepting Sample.alice_card
    (TaskCard.init Sample.alice_card)
  = (Eff.Return tt, TaskCard.init Sample.alice_card).
Proof.
  split; [reflexivity |].
  apply (same_status_update_is_noop Sample.verbatim Sample.accepting
           Sample.alice_card (TaskCard.init Sample.alice_card)).
  reflexivity.
Defined.

(* ===================================================================== *)
(** * More on the Team Overview: order and the task counts *)
(* ===================================================================== *)

Section Overview.

Import Dashboard TeamOverview Terms.

Lemma insert_by_level_at_level (k : Z) (a : User) (l : list User) :
  filter (at_level k) (insert_by_level a l) = filter (at_level k) (a :: l).
Proof.
  induction l as [| b rest IH]; [reflexivity |].
  cbn [insert_by_level].
  destruct (Z.leb_spec (role_level b - role_level a) 0) as [Hle | Hgt];
    [reflexivity |].
  cbn [filter]. rewrite IH. cbn [filter]. unfold at_level.
  destruct (Z.eqb_spec (role_level a) k), (Z.eqb_spec (role_level b) k);
    try reflexivity.
  lia.
Qed.

Lemma sort_by_level_at_level (k : Z) (l : list User) :
  filter (at_level k) (sort_by_level l) = filter (at_level k) l.
Proof.
  induction l as [| a rest IH]; [reflexivity |].
  cbn [sort_by_level]. rewrite insert_by_level_at_level.
  cbn [filter]. now rewrite IH.
Qed.

(** X1: the sort of the Team Overview is stable: for every role_level, the
    members of that level are shown in the order the roster has them (those
    not above the acting user, that is). *)
Theorem teamOverview_keeps_roster_order (users : list User) (U : User) (k : Z) :
  filter (at_level k) (teamOverview users U)
  = filter (at_level k) (filter (fun u => role_level u <=? role_level U) users).
Proof.
  unfold teamOverview. apply sort_by_level_at_level.
Qed.

Lemma with_status_cons (st : string) (t : Task) (l : list Task) :
  with_status st (t :: l)
  = ((if String.eqb (status t) st then 1 else 0) + with_status st l)%nat.
Proof.
  unfold with_status. cbn [filter].
  destruct (String.eqb (status t) st); reflexivity.
Qed.

Lemma three_counts (l : list Task) :
  (with_status "assigned" l + with_status "in_progress" l
   + with_status "completed" l <= List.length l)%nat /\
  ((with_status "assigned" l + with_status "in_progress" l
    + with_status "completed" l = List.length l)%nat <->
   Forall (fun t => In (status t) TaskCard.selectable) l).
Proof.
  induction l as [| t rest [IHle IHeq]].
  - split; [apply Nat.le_refl | split; [constructor | reflexivity]].
  - rewrite !with_status_cons. cbn [List.length].
    rewrite Forall_cons_iff, <- IHeq. unfold TaskCard.selectable. cbn [In].
    destruct (String.eqb_spec (status t) "assigned") as [-> | H1];
      [cbn; split; [lia | split; [intro; split; [auto | lia] | lia]] |].
    destruct (String.eqb_spec (status t) "in_progress") as [-> | H2];
      [cbn; split; [lia | split; [intro; split; [auto | lia] | lia]] |].
    destruct (String.eqb_spec (status t) "completed") as [-> | H3];
      [cbn; split; [lia | split; [intro; split; [auto | lia] | lia]] |].
    split; [lia | split; [lia |]].
    intros [[H | [H | [H | []]]] _]; congruence.
Qed.

(** X2: the three counters of a member's card never add up to more than the
    member's Total Tasks, and they add up to it exactly when every task of
    the member has one of the three statuses: a task with any other status
    is counted in the total and in no counter. *)
Theorem member_counters_and_total (tasks : list Task) (teamMember : User) :
  (assignedTasks tasks teamMember + inProgressTasks tasks teamMember
   + completedTasks tasks teamMember
   <= List.length (memberTasks tasks teamMember))%nat /\
  ((assignedTasks tasks teamMember + inProgressTasks tasks teamMember
    + completedTasks tasks teamMember
    = List.length (memberTasks tasks teamMember))%nat <->
   forall t, In t tasks -> assigned_to t = id teamMember ->
             In (status t) TaskCard.selectable).
Proof.
  unfold assignedTasks, inProgressTasks, completedTasks.
  destruct (three_counts (memberTasks tasks teamMember)) as [Hle Heq].
  split; [exact Hle |].
  rewrite Heq, Forall_forall. unfold memberTasks.
  split.
  - intros H t Ht Hid. apply H. apply filter_In.
    split; [exact Ht | now apply String.eqb_eq].
  - intros H t Ht. apply filter_In in Ht. destruct Ht as [Ht Hid].
    apply H; [exact Ht | now apply String.eqb_eq].
Qed.

End Overview.

(* ===================================================================== *)
(** * More on the session: the provider's life cycle *)
(* ===================================================================== *)

Section Lifecycle.

Import Http Auth Provider Terms Spec.

Lemma fetchCurrentUser_run (srv : Backend) (w : World) :
  fetchCurrentUser srv w =
  (Eff.Return tt,
   let sent := emit (Call (GetMe (default_authorization w))) w in
   match auth_me srv (default_authorization w) with
   | Resolved u => setLoading false (setUser (Some u) sent)
   | Rejected _ =>
       setLoading false
         (Eff.exec logout (emit (ConsoleError "Failed to fetch current user:") sent))
   end).
Proof.
  unfold fetchCurrentUser, Eff.try_finally, Eff.try_catch, Eff.bind, Eff.get,
    await, Http.await.
  destruct (auth_me srv (default_authorization w)); reflexivity.
Qed.

Lemma onTokenChange_run (srv : Backend) (w : World) :
  onTokenChange srv w =
  match token w with
  | Some t =>
      if Js.string_nonempty t
      then fetchCurrentUser srv (set_default_authorization (Some (bearer t)) w)
      else (Eff.Return tt, setLoading false w)
  | None => (Eff.Return tt, setLoading false w)
  end.
Proof.
  unfold onTokenChange, Eff.bind, Eff.get.
  destruct (token w) as [t |]; [| reflexivity].
  destruct (Js.string_nonempty t); reflexivity.
Qed.

Lemma step_exec (srv : Backend) (a : action) (w : World) :
  Eff.exec (step srv a) w =
  match a with
  | Login email password =>
      match auth_login srv email password with
      | Resolved p => signed_in_as p (PostLogin email password) w
      | Rejected _ => emit (Call (PostLogin email password)) w
      end
  | Register userData =>
      match auth_register srv userData with
      | Resolved p => signed_in_as p (PostRegister userData) w
      | Rejected _ => emit (Call (PostRegister userData)) w
      end
  | Logout => Eff.exec logout w
  | TokenEffect => Eff.exec (onTokenChange srv) w
  end.
Proof.
  destruct a as [email password | userData | |]; try reflexivity.
  - unfold Eff.exec, step, Eff.bind.
    destruct (auth_login srv email password) as [p | e] eqn:Hr.
    + now rewrite (login_resolved _ _ _ _ _ Hr).
    + now rewrite (login_rejected _ _ _ _ _ Hr).
  - unfold Eff.exec, step, Eff.bind.
    destruct (auth_register srv userData) as [p | e] eqn:Hr.
    + now rewrite (register_resolved _ _ _ _ Hr).
    + now rewrite (register_rejected _ _ _ _ Hr).
Qed.

Lemma in_snoc {A} (x y : A) (l : list A) :
  In x (l ++ [y]) -> In x l \/ x = y.
Proof.
  intro H. apply in_app_or in H. destruct H as [H | [H | []]]; auto.
Qed.

Lemma coherent_emit (e : effect) (w : World) : coherent w -> coherent (emit e w).
Proof. intro H. exact H. Qed.

Lemma me_authorized_emit (e : effect) (w : World) :
  (forall h, e <> Call (GetMe h)) ->
  me_authorized w -> me_authorized (emit e w).
Proof.
  intros He H h Hin. apply in_snoc in Hin. destruct Hin as [Hin | Heq].
  - now apply H.
  - symmetry in Heq. now apply He in Heq.
Qed.

Lemma step_keeps (srv : Backend) (a : action) (w : World) :
  coherent w /\ me_authorized w ->
  coherent (Eff.exec (step srv a) w) /\ me_authorized (Eff.exec (step srv a) w).
Proof.
  intros [Hc Hm]. rewrite step_exec.
  assert (Hsigned : forall p rq, (forall h, rq <> GetMe h) ->
            coherent (signed_in_as p rq w) /\ me_authorized (signed_in_as p rq w)).
  { intros p rq Hrq. split.
    - repeat split; simpl; auto. intros _. eexists. split; reflexivity.
    - intros h Hin. simpl in Hin. apply in_snoc in Hin.
      destruct Hin as [Hin | [= Heq]]; [now apply Hm |].
      symmetry in Heq. now apply Hrq in Heq. }
  destruct a as [email password | userData | |].
  - destruct (auth_login srv email password).
    + apply Hsigned. discriminate.
    + split; [exact Hc | apply me_authorized_emit; [discriminate | exact Hm]].
  - destruct (auth_register srv userData).
    + apply Hsigned. discriminate.
    + split; [exact Hc | apply me_authorized_emit; [discriminate | exact Hm]].
  - split; [| exact Hm].
    repeat split; simpl; auto. intro H. now contradiction H.
  - unfold Eff.exec. rewrite onTokenChange_run.
    destruct (token w) as [t |] eqn:Ht; [| split; assumption].
    destruct (Js.string_nonempty t) eqn:Hne; [| split; assumption].
    rewrite fetchCurrentUser_run. cbn [snd].
    assert (Hm' : forall extra,
               (forall h, In (Call (GetMe h)) extra -> h = Some (bearer t)) ->
               forall h, In (Call (GetMe h)) (trace w ++ extra) ->
                         exists t', t' <> "" /\ h = Some (bearer t')).
    { intros extra Hextra h Hin. apply in_app_or in Hin.
      destruct Hin as [Hin | Hin]; [now apply Hm |].
      exists t. split; [now apply string_nonempty_true | now apply Hextra]. }
    destruct (auth_me srv _) as [u | e]; simpl.
    + split.
      * destruct Hc as (Hs & _ & _). repeat split; simpl.
        -- exact Hs.
        -- right. now rewrite Ht.
        -- intros _. exists t. now split.
      * intros h Hin. simpl in Hin. apply (Hm' [Call (GetMe (Some (bearer t)))]).
        -- intros h' [[= <-] | []]. reflexivity.
        -- exact Hin.
    + split.
      * repeat split; simpl; auto. intro H. now contradiction H.
      * intros h Hin. simpl in Hin. rewrite <- app_assoc in Hin.
        apply (Hm' [Call (GetMe (Some (bearer t)));
                    ConsoleError "Failed to fetch current user:"]).
        -- intros h' [[= <-] | [[=] | []]]. reflexivity.
        -- exact Hin.
Qed.

Lemma run_keeps (steps : list (Backend * action)) (w : World) :
  coherent w /\ me_authorized w ->
  coherent (run steps w) /\ me_authorized (run steps w).
Proof.
  revert w. induction steps as [| [srv a] rest IH]; intros w Hw; simpl.
  - exact Hw.
  - apply IH. now apply step_keeps.
Qed.

Lemma initial_keeps (stored : option string) :
  coherent (initial stored) /\ me_authorized (initial stored).
Proof.
  split.
  - repeat split; simpl; auto. intro H. now contradiction H.
  - intros h [].
Qed.


(** X4: GET /auth/me is never sent without a token: in every session of the
    provider, each such call went out with the header 'Bearer ' followed by
    a token that is not empty. *)
Theorem me_is_never_asked_without_token (stored : option string)
        (steps : list (Backend * action)) (h : option string) :
  In (Call (GetMe h)) (trace (run steps (initial stored))) ->
  exists t, t <> "" /\ h = Some (bearer t).
Proof.
  exact (proj2 (run_keeps steps (initial stored) (initial_keeps stored)) h).
Qed.

End Lifecycle.

Lemma me_is_never_asked_without_token_witness :
  exists t, t <> "" /\ Some "Bearer tok-0" = Some (Auth.bearer t).
Proof.
  apply (me_is_never_asked_without_token (Some "tok-0")
           [(Sample.accepting, Provider.TokenEffect)] (Some "Bearer tok-0")).
  left. reflexivity.
Defined.

Section Startup.

Import Http Auth Provider Terms Spec.

(** X5: after a page load and the first run of the token effect the spinner is
    gone, and the dashboard is shown exactly when a non-empty token was
    persisted and GET /auth/me, sent with its bearer, succeeds.  A
    persisted token that the backend turns down is removed with the rest of
    the session, and the sign-in form is shown. *)
Theorem first_screen (srv : Backend) (stored : option string) (isLogin : bool) :
  let w := Eff.exec (onTokenChange srv) (initial stored) in
  AuthContent isLogin w <> Spinner /\
  (AuthContent isLogin w = DashboardScreen <->
   exists t u, stored = Some t /\ t <> "" /\
               auth_me srv (Some (bearer t)) = Resolved u) /\
  (forall t e, stored = Some t -> t <> "" ->
               auth_me srv (Some (bearer t)) = Rejected e ->
               session w = (None, None, None, None) /\
               AuthContent isLogin w = if isLogin then LoginScreen else RegisterScreen).
Proof.
  cbv zeta. unfold Eff.exec. rewrite onTokenChange_run. cbn [initial token].
  destruct stored as [t |].
  - destruct t as [| c t']; cbn [Js.string_nonempty].
    + unfold AuthContent; simpl. split; [destruct isLogin; discriminate |].
      split.
      * split; [destruct isLogin; discriminate |].
        intros (t & u & [= <-] & Hne & _). now contradiction Hne.
      * intros t e [= <-] Hne. now contradiction Hne.
    + rewrite fetchCurrentUser_run. cbn [snd set_default_authorization
        default_authorization].
      destruct (auth_me srv (Some (bearer (String c t')))) as [u | e] eqn:Hme.
      * unfold AuthContent; simpl. split; [discriminate |]. split.
        -- split; [| reflexivity]. intros _.
           exists (String c t'), u. repeat split; [discriminate | exact Hme].
        -- intros t e [= <-] _ He. congruence.
      * unfold AuthContent; simpl. split; [destruct isLogin; discriminate |].
        split.
        -- split; [destruct isLogin; discriminate |].
           intros (t & u & [= <-] & _ & Hu). congruence.
        -- intros t e0 _ _ _. split; reflexivity.
  - unfold AuthContent; simpl. split; [destruct isLogin; discriminate |].
    split.
    + split; [destruct isLogin; discriminate |].
      intros (t & u & [=] & _).
    + intros t e [=].
Qed.


Lemma login_submit_run (srv : Backend) (w : LoginForm.World) :
  LoginForm.handleSubmit srv w =
  (Eff.Return tt,
   let rq := PostLogin (LoginForm.email w) (LoginForm.password w) in
   match auth_login srv (LoginForm.email w) (LoginForm.password w) with
   | Resolved p =>
       LoginForm.mkWorld (LoginForm.email w) (LoginForm.password w)
         (Some (Js.JStr "")) false (signed_in_as p rq (LoginForm.auth w))
   | Rejected e =>
       LoginForm.mkWorld (LoginForm.email w) (LoginForm.password w)
         (Js.or (error_detail e) (Some (Js.JStr "Login failed"))) false
         (emit (Call rq) (LoginForm.auth w))
   end).
Proof.
  unfold LoginForm.handleSubmit, Eff.bind, Eff.modify, Eff.get, LoginForm.useAuth.
  cbn [LoginForm.auth LoginForm.email LoginForm.password
       LoginForm.setError LoginForm.setLoading].
  destruct (auth_login srv (LoginForm.email w) (LoginForm.password w))
    as [p | e] eqn:Hr.
  - now rewrite (login_resolved _ _ _ _ _ Hr).
  - now rewrite (login_rejected _ _ _ _ _ Hr).
Qed.

Lemma register_submit_run (srv : Backend) (w : RegisterForm.World) :
  RegisterForm.handleSubmit srv w =
  (Eff.Return tt,
   let rq := PostRegister (RegisterForm.formData w) in
   match auth_register srv (RegisterForm.formData w) with
   | Resolved p =>
       RegisterForm.mkWorld (RegisterForm.formData w)
         (Some (Js.JStr "")) false (signed_in_as p rq (RegisterForm.auth w))
   | Rejected e =>
       RegisterForm.mkWorld (RegisterForm.formData w)
         (Js.or (error_detail e) (Some (Js.JStr "Registration failed"))) false
         (emit (Call rq) (RegisterForm.auth w))
   end).
Proof.
  unfold RegisterForm.handleSubmit, Eff.bind, Eff.modify, Eff.get,
    RegisterForm.useAuth.
  cbn [RegisterForm.auth RegisterForm.formData
       RegisterForm.setError RegisterForm.setLoading].
  destruct (auth_register srv (RegisterForm.formData w)) as [p | e] eqn:Hr.
  - now rewrite (register_resolved _ _ _ _ Hr).
  - now rewrite (register_rejected _ _ _ _ Hr).
Qed.


End Startup.

(* ===================================================================== *)
(** * More on the task card: what its sessions send *)
(* ===================================================================== *)

Section CardTraces.

Import Http TaskCard Terms Spec.

Local Open Scope list_scope.

Variable format : string -> string -> string.

(** One event adds nothing to the trace, or one PATCH and its answer, or
    one comment POST and its answer. *)
Lemma dispatch_trace (srv : Backend) (p : Props) (ev : ui_event) (w : World) :
  trace (Eff.exec (dispatch format srv p ev) w) = trace w \/
  (exists a, is_answer a = true /\
     newStatus w <> status (task p) /\
     trace (Eff.exec (dispatch format srv p ev) w)
     = trace w ++ [Call (PatchTask (task_id (task p)) (newStatus w)); a]) \/
  (exists a, is_answer a = true /\
     Js.trim (newComment w) <> [] /\
     trace (Eff.exec (dispatch format srv p ev) w)
     = trace w ++ [Call (PostComment (task_id (task p)) (newComment w)); a]).
Proof.
  unfold Eff.exec, dispatch, Eff.bind, Eff.get.
  destruct ev as [| v | v | |]; cbn [fst snd].
  - now left.
  - destruct (comment_box (render format p w)); now left.
  - destruct (status_select (render format p w)); [| now left].
    destruct (existsb (String.eqb v) selectable); now left.
  - destruct (update_button (render format p w)) eqn:Hb; [| now left].
    apply update_button_true in Hb. destruct Hb as [_ Hne].
    rewrite handleStatusUpdate_run. cbn [snd].
    apply String.eqb_neq in Hne. rewrite Hne. apply String.eqb_neq in Hne.
    right; left.
    destruct (tasks_patch srv (task_id (task p)) (newStatus w)); eexists;
      (split; [| split; [exact Hne | simpl; now rewrite <- app_assoc]]);
      reflexivity.
  - destruct (comment_box (render format p w)); [| now left].
    destruct (add_disabled (render format p w)); [now left |].
    rewrite handleAddComment_run. cbn [snd].
    destruct (negb (Js.text_truthy (Js.trim (newComment w)))) eqn:Hblank;
      [now left |].
    assert (Hne : Js.trim (newComment w) <> []).
    { intro Hnil. rewrite Hnil in Hblank. discriminate. }
    right; right.
    destruct (tasks_comment srv (task_id (task p)) (newComment w)); eexists;
      (split; [| split; [exact Hne | simpl; now rewrite <- app_assoc]]);
      reflexivity.
Qed.

Lemma calls_app (l l' : list effect) : calls (l ++ l') = (calls l + calls l')%nat.
Proof. unfold calls. now rewrite filter_app, length_app. Qed.

Lemma answers_app (l l' : list effect) :
  answers (l ++ l') = (answers l + answers l')%nat.
Proof. unfold answers. now rewrite filter_app, length_app. Qed.

Lemma answers_one (a : effect) : is_answer a = true -> calls [a] = 0%nat /\ answers [a] = 1%nat.
Proof. destruct a; simpl; intro H; try discriminate; split; reflexivity. Qed.

Lemma dispatch_comments_inv (srv : Backend) (p : Props) (ev : ui_event) (w : World) :
  comments_inv p w -> comments_inv p (Eff.exec (dispatch format srv p ev) w).
Proof.
  intros [Hposts Hcount].
  destruct (dispatch_trace srv p ev w)
    as [Heq | [(a & Ha & _ & Heq) | (a & Ha & Hne & Heq)]];
    unfold comments_inv; rewrite Heq.
  - split; assumption.
  - split.
    + intros i body Hin. apply in_app_or in Hin.
      destruct Hin as [Hin | [Hin | [Hin | []]]]; [now apply Hposts | discriminate |].
      subst a. discriminate.
    + rewrite calls_app, answers_app, Hcount.
      change [Call (PatchTask (task_id (task p)) (newStatus w)); a]
        with ([Call (PatchTask (task_id (task p)) (newStatus w))] ++ [a]).
      rewrite calls_app, answers_app.
      destruct (answers_one a Ha) as [-> ->]. reflexivity.
  - split.
    + intros i body Hin. apply in_app_or in Hin.
      destruct Hin as [Hin | [Hin | [Hin | []]]]; [now apply Hposts | |].
      * injection Hin as <- <-. now split.
      * subst a. discriminate.
    + rewrite calls_app, answers_app, Hcount.
      change [Call (PostComment (task_id (task p)) (newComment w)); a]
        with ([Call (PostComment (task_id (task p)) (newComment w))] ++ [a]).
      rewrite calls_app, answers_app.
      destruct (answers_one a Ha) as [-> ->]. reflexivity.
Qed.

Lemma run_comments_inv (p : Props) (steps : list (Backend * ui_event)) (w : World) :
  comments_inv p w -> comments_inv p (run format p steps w).
Proof.
  revert w. induction steps as [| [srv ev] rest IH]; intros w Hw; simpl.
  - exact Hw.
  - apply IH. now apply dispatch_comments_inv.
Qed.

Lemma init_comments_inv (p : Props) : comments_inv p (init p).
Proof. split; [intros i body [] | reflexivity]. Qed.

(** X7: a card never posts a blank comment: whatever the user does, every
    comment POST it sends is for its own task and carries a text with at
    least one character that is not white space. *)
Theorem no_blank_comment_is_posted (p : Props) (steps : list (Backend * ui_event))
        (i : string) (body : Js.text) :
  In (Call (PostComment i body)) (trace (run format p steps (init p))) ->
  i = task_id (task p) /\
  Js.trim body <> [] /\
  exists c, In c body /\ Js.isWhiteSpace c = false.
Proof.
  intro Hin.
  destruct (proj1 (run_comments_inv p steps (init p) (init_comments_inv p))
              i body Hin) as [Hi Hne].
  split; [exact Hi | split; [exact Hne |]].
  destruct (forallb Js.isWhiteSpace body) eqn:Hall.
  - apply trim_nil in Hall. contradiction.
  - assert (Hex : existsb (fun c => negb (Js.isWhiteSpace c)) body = true).
    { clear -Hall. induction body as [| c rest IH]; simpl in *; [discriminate |].
      destruct (Js.isWhiteSpace c); simpl in *; [now apply IH | reflexivity]. }
    apply existsb_exists in Hex. destruct Hex as (c & Hc & Hws).
    exists c. split; [exact Hc | now apply negb_true_iff].
Qed.



Lemma dispatch_show (srv : Backend) (p : Props) (w : World) :
  Eff.exec (dispatch format srv p ClickShowHide) w
  = setShowComments (negb (showComments w)) w.
Proof. reflexivity. Qed.

(** X10: commenting is open to whoever sees the card, assignee or not: showing
    the comments, typing a text that is not blank and pressing Add sends
    one comment POST for the task, with the text as typed. *)
Theorem anyone_can_comment (srv : Backend) (p : Props) (t : Js.text) :
  Js.trim t <> [] ->
  exists a, is_answer a = true /\
    trace (run format p
             [(srv, ClickShowHide); (srv, ChangeComment t); (srv, ClickAdd)]
             (init p))
    = [Call (PostComment (task_id (task p)) t); a].
Proof.
  intro Hne. cbn [run].
  set (w2 := Eff.exec (dispatch format srv p (ChangeComment t))
               (Eff.exec (dispatch format srv p ClickShowHide) (init p))).
  assert (Hw2 : w2 = mkWorld true t (status (task p)) []) by reflexivity.
  assert (Hblank : negb (Js.text_truthy (Js.trim t)) = false).
  { destruct (Js.trim t); [contradiction | reflexivity]. }
  unfold Eff.exec, dispatch, Eff.bind, Eff.get. cbn [fst snd].
  fold (Eff.exec (dispatch format srv p ClickShowHide) (init p)).
  fold (Eff.exec (dispatch format srv p (ChangeComment t))
          (Eff.exec (dispatch format srv p ClickShowHide) (init p))).
  fold w2. rewrite Hw2.
  cbn [render comment_box add_disabled showComments newComment].
  rewrite Hblank, handleAddComment_run. cbn [snd newComment].
  rewrite Hblank.
  destruct (tasks_comment srv (task_id (task p)) t); eexists;
    (split; [| reflexivity]); reflexivity.
Qed.

End CardTraces.

Lemma no_blank_comment_is_posted_witness :
  "t1" = task_id (TaskCard.task Fixtures.bob_card) /\
  Js.trim (Js.of_string " ok ") <> [].
Proof.
  pose proof (no_blank_comment_is_posted Sample.verbatim Fixtures.bob_card
                [(Sample.accepting, TaskCard.ClickShowHide);
                 (Sample.accepting, TaskCard.ChangeComment (Js.of_string " ok "));
                 (Sample.accepting, TaskCard.ClickAdd)]
                "t1" (Js.of_string " ok ") (or_introl eq_refl)) as H.
  split; [exact (proj1 H) | exact (proj1 (proj2 H))].
Defined.


(** Bob, who is not the assignee of the report, comments on it. *)
Lemma anyone_can_comment_witness :
  Js.trim (Js.of_string "ok") <> [] /\
  exists a, Terms.is_answer a = true /\
    TaskCard.trace
      (TaskCard.run Sample.verbatim Fixtures.bob_card
         [(Sample.accepting, TaskCard.ClickShowHide);
          (Sample.accepting, TaskCard.ChangeComment (Js.of_string "ok"));
          (Sample.accepting, TaskCard.ClickAdd)]
         (TaskCard.init Fixtures.bob_card))
    = [Http.Call (Http.PostComment (task_id (TaskCard.task Fixtures.bob_card))
                                   (Js.of_string "ok")); a].
Proof.
  assert (H : Js.trim (Js.of_string "ok") <> []) by discriminate.
  split; [exact H |].
  exact (anyone_can_comment Sample.verbatim Sample.accepting Fixtures.bob_card
           (Js.of_string "ok") H).
Defined.

(* ===================================================================== *)
(** * The task-creation dialog *)
(* ===================================================================== *)

Section Dialog.

Import Http TaskDialog Terms.

Local Open Scope list_scope.

Variable toLowerCase : string -> string.

Lemma dialog_submit_run (create : FormData -> reply unit) (w : World) :
  handleSubmit create w =
  (Eff.Return tt,
   let sent := emit (PostTask (formData w)) (setLoading true w) in
   match create (formData w) with
   | Resolved _ =>
       setLoading false (emit OnTaskCreated (setOpen false (setFormData blank sent)))
   | Rejected _ =>
       setLoading false (emit (ConsoleError "Failed to create task:") sent)
   end).
Proof.
  unfold handleSubmit, Eff.bind, Eff.modify, Eff.try_finally, Eff.try_catch,
    Eff.get, await.
  cbn [formData setLoading].
  destruct (create (formData w)); reflexivity.
Qed.

(** X11: a creation that the backend turns down costs the user nothing: the
    dialog stays as it was, open or not, with everything that was filled
    in, and the failure goes to the console.  A creation that succeeds
    resets the form (priority back to medium), closes the dialog and
    triggers the refetch.  Either way the payload posted is the form as it
    was, the button is released and the search term stays. *)
Theorem creation_outcome (create : FormData -> reply unit) (w : World) :
  let w' := Eff.exec (handleSubmit create) w in
  loading w' = false /\
  searchTerm w' = searchTerm w /\
  match create (formData w) with
  | Resolved _ =>
      formData w' = blank /\ open w' = false /\
      trace w' = trace w ++ [PostTask (formData w); OnTaskCreated]
  | Rejected _ =>
      formData w' = formData w /\ open w' = open w /\
      trace w' = trace w ++ [PostTask (formData w);
                             ConsoleError "Failed to create task:"]
  end.
Proof.
  cbv zeta. unfold Eff.exec. rewrite dialog_submit_run. cbn [snd].
  destruct (create (formData w)); simpl; rewrite <- app_assoc; repeat split.
Qed.

Lemma priorities_In (v : string) :
  existsb (String.eqb v) priorities = true <-> In v priorities.
Proof.
  rewrite existsb_exists. split.
  - intros (x & Hx & Heq). apply String.eqb_eq in Heq. now subst.
  - intro H. exists v. split; [exact H | apply String.eqb_refl].
Qed.

Lemma filteredUsers_assignable (p : Props) (w : World) (u : User) :
  In u (filteredUsers toLowerCase p w) ->
  In u (users p) /\
  id u <> id (currentUser p) /\
  role_level u <= role_level (currentUser p).
Proof.
  unfold filteredUsers, CreateTaskDialog.assignableUsers.
  rewrite !filter_In, assignable_true. tauto.
Qed.

Lemma dialog_inv_form (p : Props) (w w' : World) :
  trace w' = trace w ->
  priority (formData w') = priority (formData w) ->
  assigned_to (formData w') = assigned_to (formData w) ->
  dialog_inv p w -> dialog_inv p w'.
Proof.
  intros Ht Hp Ha (H1 & H2 & H3). unfold dialog_inv.
  rewrite Ht, Hp, Ha. split; [exact H1 | split; [exact H2 | exact H3]].
Qed.

Lemma dispatch_dialog_inv (create : FormData -> reply unit) (p : Props)
      (ev : ui_event) (w : World) :
  dialog_inv p w -> dialog_inv p (Eff.exec (dispatch toLowerCase create p ev) w).
Proof.
  intro Hinv. pose proof Hinv as (Hposts & Hprio & Hassignee).
  unfold Eff.exec, dispatch, Eff.bind, Eff.get. cbn [fst snd].
  destruct ev as [b | v | v | v | n | v | d | |];
    try (now apply (dialog_inv_form p w _ eq_refl eq_refl eq_refl)).
  - destruct (nth_error (filteredUsers toLowerCase p w) n) as [u |] eqn:Hn;
      [| exact Hinv].
    apply nth_error_In in Hn. apply filteredUsers_assignable in Hn.
    split; [exact Hposts | split; [exact Hprio |]].
    right. exists u. cbn. tauto.
  - destruct (existsb (String.eqb v) priorities) eqn:Hv; [| exact Hinv].
    apply priorities_In in Hv.
    split; [exact Hposts | split; [exact Hv | exact Hassignee]].
  - destruct (Js.string_nonempty (title (formData w))) eqn:Htitle;
      [| exact Hinv].
    destruct (Js.string_nonempty (description (formData w))) eqn:Hdesc;
      [| exact Hinv].
    destruct (negb (loading w)); [| exact Hinv]. cbn [andb].
    apply string_nonempty_true in Htitle, Hdesc.
    assert (Hnow : postable p (formData w)) by (repeat split; assumption).
    rewrite dialog_submit_run. cbn [snd].
    destruct (create (formData w)); cbv zeta.
    + split; [| split; [right; left; reflexivity | left; reflexivity]].
      intros body Hin. simpl in Hin. rewrite <- app_assoc in Hin.
      apply in_app_or in Hin.
      destruct Hin as [Hin | [[= <-] | [Hin | []]]];
        [now apply Hposts | exact Hnow | discriminate].
    + split; [| split; [exact Hprio | exact Hassignee]].
      intros body Hin. simpl in Hin. rewrite <- app_assoc in Hin.
      apply in_app_or in Hin.
      destruct Hin as [Hin | [[= <-] | [Hin | []]]];
        [now apply Hposts | exact Hnow | discriminate].
Qed.

Lemma run_dialog_inv (p : Props) (steps : list ((FormData -> reply unit) * ui_event))
      (w : World) :
  dialog_inv p w -> dialog_inv p (run toLowerCase p steps w).
Proof.
  revert w. induction steps as [| [create ev] rest IH]; intros w Hw; simpl.
  - exact Hw.
  - apply IH. now apply dispatch_dialog_inv.
Qed.

Lemma init_dialog_inv (p : Props) : dialog_inv p init.
Proof.
  split; [intros body [] | split; [right; left; reflexivity | left; reflexivity]].
Qed.

(** X12: whatever the user does with the dialog, every payload it posts to
    /tasks has a title and a description, one of the priorities low, medium
    and high, and as assignee either nobody (the empty string) or a member
    of the roster who is not the current user and whose role_level is not
    above the current user's. *)
Theorem posted_task_is_postable (p : Props)
        (steps : list ((FormData -> reply unit) * ui_event)) (body : FormData) :
  In (PostTask body) (trace (run toLowerCase p steps init)) ->
  title body <> "" /\
  description body <> "" /\
  In (priority body) priorities /\
  (assigned_to body = "" \/
   exists u, In u (users p) /\ id u = assigned_to body /\
             id u <> id (currentUser p) /\
             role_level u <= role_level (currentUser p)).
Proof.
  intro Hin.
  exact (proj1 (run_dialog_inv p steps init (init_dialog_inv p)) body Hin).
Qed.

(** X13: the form does not ask for an assignee: with a title and a description
    typed and nobody chosen, submitting posts the task with the empty
    string as assigned_to (and the default priority, medium). *)
Theorem task_without_assignee_is_posted (create : FormData -> reply unit)
        (p : Props) (t d : string) :
  t <> "" -> d <> "" ->
  exists a,
    (a = OnTaskCreated \/ a = ConsoleError "Failed to create task:") /\
    trace (run toLowerCase p
             [(create, ChangeTitle t); (create, ChangeDescription d); (create, Submit)]
             init)
    = [PostTask (mkFormData t d "" "medium" None); a].
Proof.
  intros Ht Hd. cbn [run].
  apply string_nonempty_true in Ht, Hd.
  unfold Eff.exec, dispatch, Eff.bind, Eff.get, Eff.modify. cbn [fst snd].
  cbn [handleChange setFormData formData init title description loading
       assigned_to priority due_date blank].
  rewrite Ht, Hd. cbn [andb negb].
  rewrite dialog_submit_run. cbn.
  destruct (create (mkFormData t d "" "medium" None)); eexists;
    (split; [| reflexivity]); auto.
Qed.

End Dialog.

Lemma posted_task_is_postable_witness :
  TaskDialog.title (TaskDialog.mkFormData "Plan" "Draft it" "u3" "high" None) <> "".
Proof.
  apply (posted_task_is_postable Fixtures.ascii_lower Fixtures.alice_dialog
           [(Fixtures.created, TaskDialog.ChangeTitle "Plan");
            (Fixtures.created, TaskDialog.ChangeDescription "Draft it");
            (Fixtures.created, TaskDialog.ChangeSearch "CAROL");
            (Fixtures.created, TaskDialog.ClickUser 0);
            (Fixtures.created, TaskDialog.SelectPriority "high");
            (Fixtures.created, TaskDialog.Submit)]
           (TaskDialog.mkFormData "Plan" "Draft it" "u3" "high" None)).
  left. reflexivity.
Defined.

Lemma task_without_assignee_is_posted_witness :
  ("Plan" <> "" /\ "Draft it" <> "") /\
  exists a,
    (a = TaskDialog.OnTaskCreated \/
     a = TaskDialog.ConsoleError "Failed to create task:") /\
    TaskDialog.trace
      (TaskDialog.run Fixtures.ascii_lower Fixtures.alice_dialog
         [(Fixtures.refused, TaskDialog.ChangeTitle "Plan");
          (Fixtures.refused, TaskDialog.ChangeDescription "Draft it");
          (Fixtures.refused, TaskDialog.Submit)]
         TaskDialog.init)
    = [TaskDialog.PostTask (TaskDialog.mkFormData "Plan" "Draft it" "" "medium" None); a].
Proof.
  assert (H1 : "Plan" <> "") by discriminate.
  assert (H2 : "Draft it" <> "") by discriminate.
  split; [split; assumption |].
  exact (task_without_assignee_is_posted Fixtures.ascii_lower Fixtures.refused
           Fixtures.alice_dialog "Plan" "Draft it" H1 H2).
Defined.

(* ===================================================================== *)
(** * The search of the dialog *)
(* ===================================================================== *)

Section Search.

Import TaskDialog Terms.

Variable toLowerCase : string -> string.

Lemma startsWith_spec (s t : string) :
  Str.startsWith s t = true <-> exists b, s = (t ++ b)%string.
Proof.
  revert s. induction t as [| c t IH]; intros [| a s]; simpl.
  - split; [intros _; now exists EmptyString | reflexivity].
  - split; [intros _; now exists (String a s) | reflexivity].
  - split; [discriminate | intros (b & [=])].
  - rewrite andb_true_iff, Ascii.eqb_eq, IH. split.
    + intros (-> & b & ->). now exists b.
    + intros (b & [= -> ->]). split; [reflexivity | now exists b].
Qed.

(** [s.includes(t)] holds exactly when [t] occurs in [s]. *)
Lemma includes_spec (s t : string) :
  Str.includes s t = true <-> exists a b, s = (a ++ t ++ b)%string.
Proof.
  induction s as [| c s IH]; cbn [Str.includes];
    rewrite orb_true_iff, startsWith_spec.
  - split.
    + intros [(b & Hb) | [=]]. now exists EmptyString, b.
    + intros (a & b & H). left. destruct a; [now exists b | discriminate].
  - rewrite IH. split.
    + intros [(b & Hb) | (a & b & ->)].
      * now exists EmptyString, b.
      * now exists (String c a), b.
    + intros (a & b & H). destruct a as [| c' a]; simpl in H.
      * left. now exists b.
      * right. injection H as -> ->. now exists a, b.
Qed.

(** X14: the candidate cards are the assignable users that match the search: a
    user is offered exactly when the user is in the assignment candidate
    list and the lower-cased search term occurs in the lower-cased name,
    role or email.  Searching can only narrow the list. *)
Theorem search_offers_matching_candidates (p : Props) (w : World) (u : User) :
  In u (filteredUsers toLowerCase p w) <->
  In u (CreateTaskDialog.assignableUsers (users p) (currentUser p)) /\
  exists field, In field [name u; role u; email u] /\
    exists a b,
      toLowerCase field = (a ++ toLowerCase (searchTerm w) ++ b)%string.
Proof.
  unfold filteredUsers, matches.
  rewrite filter_In, !orb_true_iff, !includes_spec. split.
  - intros [Hu [[H | H] | H]]; (split; [exact Hu |]).
    + exists (name u). split; [now left | exact H].
    + exists (role u). split; [right; now left | exact H].
    + exists (email u). split; [right; right; now left | exact H].
  - intros [Hu (field & [<- | [<- | [<- | []]]] & H)]; (split; [exact Hu |]); auto.
Qed.

Lemma includes_empty (s : string) : Str.includes s "" = true.
Proof. destruct s; reflexivity. Qed.

(** X15: with nothing typed in the search box the dialog offers the whole
    assignment candidate list, in its order. *)
Theorem empty_search_offers_all (p : Props) (w : World) :
  toLowerCase "" = "" ->
  searchTerm w = "" ->
  filteredUsers toLowerCase p w
  = CreateTaskDialog.assignableUsers (users p) (currentUser p).
Proof.
  intros Hlower Hterm. unfold filteredUsers, matches.
  rewrite Hterm, Hlower.
  induction (CreateTaskDialog.assignableUsers (users p) (currentUser p))
    as [| u rest IH]; [reflexivity |].
  cbn [filter]. rewrite includes_empty. cbn [orb]. now rewrite IH.
Qed.

End Search.

Lemma empty_search_offers_all_witness :
  TaskDialog.filteredUsers Fixtures.ascii_lower Fixtures.alice_dialog TaskDialog.init
  = [Sample.carol].
Proof.
  rewrite (empty_search_offers_all Fixtures.ascii_lower Fixtures.alice_dialog
             TaskDialog.init eq_refl eq_refl).
  reflexivity.
Defined.

(* ===================================================================== *)
(** * The two fetches of the dashboard *)
(* ===================================================================== *)

Section Fetches.

Import Http DashboardData Terms.

Local Open Scope list_scope.

Lemma fetchTasks_run (srv : Backend) (w : World) :
  fetchTasks srv w =
  (Eff.Return tt,
   match get_tasks srv with
   | Resolved l => setLoading false (setTasks l (emit GetTasks w))
   | Rejected _ =>
       setLoading false (emit (ConsoleError "Failed to fetch tasks:") (emit GetTasks w))
   end).
Proof.
  unfold fetchTasks, Eff.try_finally, Eff.try_catch, Eff.bind, await.
  destruct (get_tasks srv); reflexivity.
Qed.

Lemma fetchUsers_run (srv : Backend) (w : World) :
  fetchUsers srv w =
  (Eff.Return tt,
   match get_users srv with
   | Resolved l => setUsers l (emit GetUsers w)
   | Rejected _ => emit (ConsoleError "Failed to fetch users:") (emit GetUsers w)
   end).
Proof.
  unfold fetchUsers, Eff.try_catch, Eff.bind, await.
  destruct (get_users srv); reflexivity.
Qed.

(** X16: a fetch that fails keeps what the dashboard had: [fetchTasks] leaves
    the task list (and so the tabs' counts) as it was and [fetchUsers] the
    roster, each with a line on the console; a fetch that succeeds replaces
    its list.  [fetchTasks] always ends the loading state, also on failure;
    [fetchUsers] never touches it, nor the task list. *)
Theorem failed_fetch_keeps_lists (srv : Backend) (w : World) (user : User) :
  let w1 := Eff.exec (fetchTasks srv) w in
  let w2 := Eff.exec (fetchUsers srv) w in
  loading w1 = false /\ users w1 = users w /\
  match get_tasks srv with
  | Resolved l => tasks w1 = l /\ trace w1 = trace w ++ [GetTasks]
  | Rejected _ =>
      tasks w1 = tasks w /\
      Dashboard.assignedToMe (tasks w1) user = Dashboard.assignedToMe (tasks w) user /\
      trace w1 = trace w ++ [GetTasks; ConsoleError "Failed to fetch tasks:"]
  end /\
  loading w2 = loading w /\ tasks w2 = tasks w /\
  match get_users srv with
  | Resolved l => users w2 = l /\ trace w2 = trace w ++ [GetUsers]
  | Rejected _ =>
      users w2 = users w /\
      trace w2 = trace w ++ [GetUsers; ConsoleError "Failed to fetch users:"]
  end.
Proof.
  cbv zeta. unfold Eff.exec. rewrite fetchTasks_run, fetchUsers_run. cbn [snd].
  destruct (get_tasks srv), (get_users srv); simpl;
    rewrite <- ?app_assoc; repeat split.
Qed.

End Fetches.

(* ===================================================================== *)
(** * Role names on the badges *)
(* ===================================================================== *)

Section RoleNames.

Import Terms.

Variable toUpperCase : string -> string.

Lemma has_append (c : ascii) (a b : string) :
  Str.has c (a ++ b) = Str.has c a || Str.has c b.
Proof.
  induction a as [| x a IH]; simpl; [reflexivity |].
  now rewrite IH, orb_assoc.
Qed.

Lemma split_pieces_without (sep : ascii) (s : string) :
  Forall (fun piece => Str.has sep piece = false) (Str.split sep s).
Proof.
  induction s as [| c rest IH]; simpl.
  - constructor; [reflexivity | constructor].
  - destruct (Ascii.eqb c sep) eqn:Hc.
    + constructor; [reflexivity | exact IH].
    + destruct (Str.split sep rest) as [| piece pieces];
        [constructor; [simpl; now rewrite Hc | constructor] |].
      inversion IH as [| ? ? Hpiece Hpieces]; subst.
      constructor; [simpl; now rewrite Hc, Hpiece | exact Hpieces].
Qed.

Lemma join_without (c : ascii) (sep : string) (pieces : list string) :
  Str.has c sep = false ->
  Forall (fun piece => Str.has c piece = false) pieces ->
  Str.has c (Str.join sep pieces) = false.
Proof.
  intros Hsep Hall. induction Hall as [| piece rest Hpiece Hrest IH];
    [reflexivity |].
  destruct rest as [| next rest]; [exact Hpiece |].
  change (Str.join sep (piece :: next :: rest))
    with (piece ++ sep ++ Str.join sep (next :: rest))%string.
  now rewrite !has_append, Hpiece, Hsep, IH.
Qed.

Lemma charAt0_without (c : ascii) (word : string) :
  Str.has c word = false -> Str.has c (Str.charAt0 word) = false.
Proof.
  destruct word as [| a rest]; simpl; [reflexivity |].
  intro H. apply orb_false_iff in H. destruct H as [-> _]. reflexivity.
Qed.

Lemma slice1_without (c : ascii) (word : string) :
  Str.has c word = false -> Str.has c (Str.slice1 word) = false.
Proof.
  destruct word as [| a rest]; simpl; [reflexivity |].
  intro H. apply orb_false_iff in H. now destruct H.
Qed.

(** X17: a role name on a badge shows no underscore, however many the role has:
    each one becomes a space (given that upper-casing brings in no
    underscore, as [toUpperCase] does not). *)
Theorem role_name_has_no_underscore (role : string) :
  (forall s, no_underscore s -> no_underscore (toUpperCase s)) ->
  no_underscore (Roles.getRoleDisplayName toUpperCase role).
Proof.
  intro Hupper. unfold no_underscore, Roles.getRoleDisplayName.
  apply join_without; [reflexivity |].
  apply Forall_map.
  eapply Forall_impl; [| apply split_pieces_without].
  intros word Hword. cbv beta. rewrite has_append.
  rewrite (Hupper _ (charAt0_without _ _ Hword)).
  now rewrite (slice1_without _ _ Hword).
Qed.

(** X18: the label a role has in the Select of the sign-up form is the name
    the badges show for it: for each of the eight roles offered,
    [getRoleDisplayName] of the value is the label (given that upper-casing
    a small letter of ASCII gives the capital letter). *)
Theorem role_labels_are_display_names (value label : string) :
  (forall c, small_letter c = true ->
             toUpperCase (String c "") = String (Fixtures.upper_ascii c) "") ->
  In (value, label) RegisterForm.roles ->
  Roles.getRoleDisplayName toUpperCase value = label.
Proof.
  intros Hupper Hin. unfold RegisterForm.roles in Hin. cbn [In] in Hin.
  repeat (destruct Hin as [[= <- <-] | Hin];
          [unfold Roles.getRoleDisplayName; cbn;
           rewrite ?Hupper by reflexivity; reflexivity |]).
  contradiction.
Qed.

End RoleNames.

Lemma upper_ascii_keeps_no_underscore (s : string) :
  Terms.no_underscore s -> Terms.no_underscore (Fixtures.ascii_upper s).
Proof.
  unfold Terms.no_underscore. induction s as [| c rest IH]; [reflexivity |].
  cbn [Str.has Fixtures.ascii_upper Fixtures.map_string].
  intro H. apply orb_false_iff in H. destruct H as [Hc Hrest].
  fold (Fixtures.ascii_upper rest). rewrite (IH Hrest), orb_false_r.
  revert Hc. clear.
  destruct c as [[] [] [] [] [] [] [] []]; vm_compute; congruence.
Qed.

Lemma role_name_has_no_underscore_witness :
  Roles.getRoleDisplayName Fixtures.ascii_upper "senior_team_lead"
  = "Senior Team Lead" /\
  Terms.no_underscore (Roles.getRoleDisplayName Fixtures.ascii_upper "senior_team_lead").
Proof.
  split; [reflexivity |].
  exact (role_name_has_no_underscore Fixtures.ascii_upper "senior_team_lead"
           upper_ascii_keeps_no_underscore).
Defined.

Lemma role_labels_are_display_names_witness :
  Roles.getRoleDisplayName Fixtures.ascii_upper "team_lead" = "Team Lead".
Proof.
  apply (role_labels_are_display_names Fixtures.ascii_upper "team_lead" "Team Lead").
  - intros c _. reflexivity.
  - right; right; left. reflexivity.
Defined.

(* ===================================================================== *)
(** * No rejection escapes *)
(* ===================================================================== *)

Section NoThrow.

Import Http Terms.

(** X19: no handler of the file lets a failed call escape as an exception:
    whatever the backend answers and whatever the state, the provider's
    functions, the submissions of the two forms, the two handlers of a
    card, the two fetches of the dashboard and the submission of the
    dialog all end by returning. *)
Theorem no_rejection_escapes (srv : Backend) (dash : DashboardData.Backend)
        (create : TaskDialog.FormData -> reply unit) :
  (forall email password, returns (Auth.login srv email password)) /\
  (forall userData, returns (Auth.register srv userData)) /\
  returns Auth.logout /\
  returns (Auth.fetchCurrentUser srv) /\
  returns (Auth.onTokenChange srv) /\
  returns (LoginForm.handleSubmit srv) /\
  returns (RegisterForm.handleSubmit srv) /\
  (forall p, returns (TaskCard.handleStatusUpdate srv p)) /\
  (forall p, returns (TaskCard.handleAddComment srv p)) /\
  returns (DashboardData.fetchTasks dash) /\
  returns (DashboardData.fetchUsers dash) /\
  returns (TaskDialog.handleSubmit create).
Proof.
  unfold returns, Eff.result.
  repeat match goal with |- _ /\ _ => split end.
  - intros email password w.
    destruct (auth_login srv email password) as [p | e] eqn:Hr.
    + rewrite (login_resolved _ _ _ _ _ Hr). now eexists.
    + rewrite (login_rejected _ _ _ _ _ Hr). now eexists.
  - intros userData w.
    destruct (auth_register srv userData) as [p | e] eqn:Hr.
    + rewrite (register_resolved _ _ _ _ Hr). now eexists.
    + rewrite (register_rejected _ _ _ _ Hr). now eexists.
  - intro w. now eexists.
  - intro w. rewrite fetchCurrentUser_run. now eexists.
  - intro w. rewrite onTokenChange_run.
    destruct (Auth.token w) as [t |]; [| now eexists].
    destruct (Js.string_nonempty t); [| now eexists].
    rewrite fetchCurrentUser_run. now eexists.
  - intro w. rewrite login_submit_run. now eexists.
  - intro w. rewrite register_submit_run. now eexists.
  - intros p w. rewrite handleStatusUpdate_run. now eexists.
  - intros p w. rewrite handleAddComment_run. now eexists.
  - intro w. rewrite fetchTasks_run. now eexists.
  - intro w. rewrite fetchUsers_run. now eexists.
  - intro w. rewrite dialog_submit_run. now eexists.
Qed.

End NoThrow.
